(** * journald-syslog: the syslog packet parser [ParseSyslog]

    A shallow embedding of [ParseSyslog] (journald-syslog.go, lines 37-112)
    together with the parts of the Go runtime and of the Go standard library
    the function relies on:

    - Go strings are byte sequences: [string] here, one [ascii] per byte;
    - Go [int] values are [Z] (no value met by the parser leaves 64 bits);
    - indexing [s[i]] and slicing [s[lo:hi]] panic when out of range, which
      is made explicit by the [Outcome] type;
    - [time.Now()] is the only effect; it is threaded as a counter of clock
      readings over a sequence of readings;
    - package [time] is taken as an interface ([TimeLib]); package [strings]
      and [strconv.Atoi] are written out. *)

From Stdlib Require Import ZArith String Ascii List Bool Lia.
Import ListNotations.

Local Open Scope string_scope.
Local Open Scope Z_scope.

(* ================================================================== *)
(** ** Go runtime: panics, indexing, slicing *)

Inductive RuntimeError : Type :=
| IndexOutOfRange
| SliceBoundsOutOfRange.

Inductive Outcome (A : Type) : Type :=
| Returned (a : A)
| Panicked (e : RuntimeError).

Arguments Returned {A} a.
Arguments Panicked {A} e.

Definition bind {A B : Type} (o : Outcome A) (f : A -> Outcome B) : Outcome B :=
  match o with
  | Returned a => f a
  | Panicked e => Panicked e
  end.

Notation "x <- o ;; k" := (bind o (fun x => k))
  (at level 61, o at next level, right associativity).
Notation "' pat <- o ;; k" := (bind o (fun x => match x with pat => k end))
  (at level 61, pat pattern, o at next level, right associativity).

(** [len(s)] *)
Definition len (s : string) : Z := Z.of_nat (String.length s).

(** The first [n] bytes of [s] (all of [s] when it is shorter). *)
Fixpoint take (n : nat) (s : string) : string :=
  match n, s with
  | O, _ => ""
  | S _, EmptyString => ""
  | S n', String c s' => String c (take n' s')
  end.

(** [s] without its first [n] bytes (empty when [s] is shorter). *)
Fixpoint drop (n : nat) (s : string) : string :=
  match n, s with
  | O, _ => s
  | S _, EmptyString => ""
  | S n', String _ s' => drop n' s'
  end.

(** [s[i]]: panics unless [0 <= i < len(s)]. *)
Definition index (s : string) (i : Z) : Outcome ascii :=
  if (0 <=? i) && (i <? len s) then
    match String.get (Z.to_nat i) s with
    | Some c => Returned c
    | None => Panicked IndexOutOfRange
    end
  else Panicked IndexOutOfRange.

(** [s[lo:hi]]: panics unless [0 <= lo <= hi <= len(s)]. *)
Definition slice (s : string) (lo hi : Z) : Outcome string :=
  if (0 <=? lo) && (lo <=? hi) && (hi <=? len s) then
    Returned (take (Z.to_nat (hi - lo)) (drop (Z.to_nat lo) s))
  else Panicked SliceBoundsOutOfRange.

(** [s[lo:]] *)
Definition slice_from (s : string) (lo : Z) : Outcome string :=
  slice s lo (len s).

(** [s[:hi]] *)
Definition slice_to (s : string) (hi : Z) : Outcome string :=
  slice s 0 hi.

(* ================================================================== *)
(** ** Package strings *)

(** Position of the first byte of [s] equal to [c], counted from [i]. *)
Fixpoint index_byte_from (i : nat) (s : string) (c : ascii) : option nat :=
  match s with
  | EmptyString => None
  | String a s' => if Ascii.eqb a c then Some i else index_byte_from (S i) s' c
  end.

(** [strings.IndexRune(s, r)] for a rune below [utf8.RuneSelf], where it is
    [strings.IndexByte]: the index of the first occurrence, or -1. *)
Definition strings_IndexRune (s : string) (r : ascii) : Z :=
  match index_byte_from 0 s r with
  | Some i => Z.of_nat i
  | None => -1
  end.

(** The loop of [strings.genSplit] for a one-byte separator: [k] is the
    number of cuts still allowed ([n-1-i] in the Go code); the last element
    is the remainder, left unsplit. *)
Fixpoint genSplit (k : nat) (s : string) (sep : ascii) : list string :=
  match k with
  | O => [s]
  | S k' =>
      match index_byte_from 0 s sep with
      | None => [s]
      | Some m => take m s :: genSplit k' (drop (S m) s) sep
      end
  end.

(** [strings.SplitN(s, sep, n)] for a one-byte separator and [n >= 0]
    ([n = 0] gives nil). *)
Definition strings_SplitN (s : string) (sep : ascii) (n : nat) : list string :=
  match n with
  | O => []
  | S k => genSplit k s sep
  end.

(** [strings.Join(elems, sep)] *)
Fixpoint strings_Join (elems : list string) (sep : string) : string :=
  match elems with
  | [] => ""
  | [e] => e
  | e :: rest => e ++ sep ++ strings_Join rest sep
  end.

(** [parts[lo:hi]] on a slice of strings, used where the bounds are known
    to hold ([len(parts) == 5] guards [parts[1:4]]). *)
Definition sublist (parts : list string) (lo hi : nat) : list string :=
  firstn (hi - lo) (skipn lo parts).

(** [parts[i]] under a length guard. *)
Definition part (parts : list string) (i : nat) : string := nth i parts "".

(* ================================================================== *)
(** ** strconv.Atoi *)

(** Value of a decimal digit byte, [None] when [ch - '0' > 9]. *)
Definition digit_value (ch : ascii) : option Z :=
  let n := Z.of_nat (nat_of_ascii ch) in
  if (48 <=? n) && (n <=? 57) then Some (n - 48) else None.

(** The digit loop: [n = n*10 + int(ch)]. *)
Fixpoint parse_digits (n : Z) (s : string) : option Z :=
  match s with
  | EmptyString => Some n
  | String ch s' =>
      match digit_value ch with
      | Some d => parse_digits (n * 10 + d) s'
      | None => None
      end
  end.

Definition int_min : Z := - 2 ^ 63.
Definition int_max : Z := 2 ^ 63 - 1.

(** [strconv.Atoi(s)]: an optional sign, then at least one decimal digit
    and nothing else; [None] stands for a non-nil error (syntax, or range
    for a value outside of [int]). *)
Definition strconv_Atoi (s : string) : option Z :=
  match s with
  | EmptyString => None
  | String c s' =>
      let neg := Ascii.eqb c "-" in
      let digits := if neg || Ascii.eqb c "+" then s' else s in
      match digits with
      | EmptyString => None
      | _ =>
          match parse_digits 0 digits with
          | Some n =>
              let v := if neg then - n else n in
              if (int_min <=? v) && (v <=? int_max) then Some v else None
          | None => None
          end
      end
  end.

(** [strconv.Itoa(i)] for [i >= 0], most significant digit first; [fuel]
    bounds the number of digits. *)
Fixpoint itoa_digits (fuel : nat) (i : Z) (acc : string) : string :=
  match fuel with
  | O => acc
  | S fuel' =>
      let acc' := String (ascii_of_nat (Z.to_nat (48 + i mod 10))) acc in
      if i <? 10 then acc' else itoa_digits fuel' (i / 10) acc'
  end.

Definition strconv_Itoa (i : Z) : string :=
  if i <? 0 then String "-" (itoa_digits 20 (- i) "")
  else itoa_digits 20 i "".

(* ================================================================== *)
(** ** Package time, as an interface *)

(** The three layouts [ParseSyslog] passes to [time.Parse]. *)
Inductive Layout : Type :=
| RFC3339Nano   (* "2006-01-02T15:04:05.999999999Z07:00" *)
| RFC3339       (* "2006-01-02T15:04:05Z07:00" *)
| Stamp.        (* "Jan _2 15:04:05" *)

(** What the parser uses of package time: [time.Parse(layout, value)],
    with [None] for a non-nil error, and [Time.String()].  Every layout
    above starts with a digit or a month name, so the single byte "-" is
    rejected by all of them.  An instance stands for the package within
    one process: [time.Parse] and [Time.String()] consult [time.Local],
    which the program never changes once it runs. *)
Class TimeLib : Type := {
  time_Time : Type;
  time_Parse : Layout -> string -> option time_Time;
  Time_String : time_Time -> string;
  time_Parse_nil : forall layout, time_Parse layout "-" = None
}.

(* ================================================================== *)
(** ** SyslogMessage and ParseSyslog *)

(** [type SyslogMessage struct] (lines 23-33). *)
Record SyslogMessage : Type := mkSyslogMessage {
  Version : Z;
  Facility : Z;
  Severity : Z;
  Timestamp : string;
  Hostname : string;
  Tag : string;
  StructuredData : string;
  Message : string;
  Source : string
}.

Definition set_Version (v : Z) (m : SyslogMessage) : SyslogMessage :=
  mkSyslogMessage v (Facility m) (Severity m) (Timestamp m) (Hostname m)
                  (Tag m) (StructuredData m) (Message m) (Source m).
Definition set_Facility (v : Z) (m : SyslogMessage) : SyslogMessage :=
  mkSyslogMessage (Version m) v (Severity m) (Timestamp m) (Hostname m)
                  (Tag m) (StructuredData m) (Message m) (Source m).
Definition set_Severity (v : Z) (m : SyslogMessage) : SyslogMessage :=
  mkSyslogMessage (Version m) (Facility m) v (Timestamp m) (Hostname m)
                  (Tag m) (StructuredData m) (Message m) (Source m).
Definition set_Timestamp (v : string) (m : SyslogMessage) : SyslogMessage :=
  mkSyslogMessage (Version m) (Facility m) (Severity m) v (Hostname m)
                  (Tag m) (StructuredData m) (Message m) (Source m).
Definition set_Hostname (v : string) (m : SyslogMessage) : SyslogMessage :=
  mkSyslogMessage (Version m) (Facility m) (Severity m) (Timestamp m) v
                  (Tag m) (StructuredData m) (Message m) (Source m).
Definition set_Tag (v : string) (m : SyslogMessage) : SyslogMessage :=
  mkSyslogMessage (Version m) (Facility m) (Severity m) (Timestamp m)
                  (Hostname m) v (StructuredData m) (Message m) (Source m).
Definition set_StructuredData (v : string) (m : SyslogMessage) : SyslogMessage :=
  mkSyslogMessage (Version m) (Facility m) (Severity m) (Timestamp m)
                  (Hostname m) (Tag m) v (Message m) (Source m).
Definition set_Message (v : string) (m : SyslogMessage) : SyslogMessage :=
  mkSyslogMessage (Version m) (Facility m) (Severity m) (Timestamp m)
                  (Hostname m) (Tag m) (StructuredData m) v (Source m).

(** The two local variables the body of [ParseSyslog] mutates: the record
    under construction and the cursor [rest]. *)
Definition Locals : Type := (SyslogMessage * string)%type.

(** A run of a function that may read the clock: from the number of
    readings already taken to the outcome and the new number. *)
Definition Run (A : Type) : Type := nat -> Outcome A * nat.

Definition result {A : Type} (r : Outcome A * nat) : Outcome A := fst r.
Definition readings {A : Type} (r : Outcome A * nat) : nat := snd r.

Definition run_bind {A B : Type} (r : Run A) (f : A -> Run B) : Run B :=
  fun k =>
    match r k with
    | (Returned a, k') => f a k'
    | (Panicked e, k') => (Panicked e, k')
    end.

(** A computation that does not read the clock. *)
Definition lift {A : Type} (o : Outcome A) : Run A := fun k => (o, k).

Section Parser.

Context {TL : TimeLib}.

(** The wall clock: [clock k] is what [time.Now().UTC().String()] gives
    at the reading number [k]. *)
Variable clock : nat -> string.

(** [time.Now().UTC().String()] *)
Definition time_Now_UTC_String : Run string :=
  fun k => (Returned (clock k), S k).

(** Lines 67-70: RFC3339Nano first, RFC3339 when that fails. *)
Definition parse_rfc3339 (tok : string) : option time_Time :=
  match time_Parse RFC3339Nano tok with
  | Some ts => Some ts
  | None => time_Parse RFC3339 tok
  end.

(** Lines 85-90, the structured-data block. *)
Definition parse_sd (msg : SyslogMessage) (rest : string) : Outcome Locals :=
  c <- index rest 0 ;;
  if Ascii.eqb c "[" then
    let sdEnd := strings_IndexRune rest "]" in
    if 1 <? sdEnd then
      sd <- slice_to rest sdEnd ;;
      rest' <- slice_from rest (sdEnd + 2) ;;
      Returned (set_StructuredData sd msg, rest')
    else Returned (msg, rest)
  else Returned (msg, rest).

(** Lines 65-92, the branch taken after the version digit. *)
Definition parse_structured (msg : SyslogMessage) (rest : string)
  : Outcome Locals :=
  let tsEnd := strings_IndexRune rest " " in
  if 0 <=? tsEnd then
    tok <- slice_to rest tsEnd ;;
    match parse_rfc3339 tok with
    | Some ts =>
        let msg := set_Timestamp (Time_String ts) msg in
        rest <- slice_from rest (tsEnd + 1) ;;
        let parts := strings_SplitN rest " " 5 in
        if Nat.eqb (List.length parts) 5 then
          parse_sd (set_Tag (strings_Join (sublist parts 1 4) " ")
                      (set_Hostname (part parts 0) msg))
                   (part parts 4)
        else parse_sd msg rest
    | None => Returned (msg, rest)
    end
  else Returned (msg, rest).

(** Lines 94-105, the [else] branch. *)
Definition parse_legacy (msg : SyslogMessage) (rest : string)
  : Outcome Locals :=
  stamp <- slice_to rest 15 ;;
  match time_Parse Stamp stamp with
  | Some ts =>
      let msg := set_Timestamp (Time_String ts) msg in
      rest <- slice_from rest 16 ;;
      let parts := strings_SplitN rest " " 3 in
      if Nat.eqb (List.length parts) 3 then
        Returned (set_Tag (part parts 1) (set_Hostname (part parts 0) msg),
                  part parts 2)
      else Returned (msg, rest)
  | None => Returned (msg, rest)
  end.

(** Lines 59-106: the version test and the grammar it selects. *)
Definition parse_version (msg : SyslogMessage) (rest : string)
  : Outcome Locals :=
  c <- index rest 0 ;;
  if Ascii.eqb c "1" then
    let msg := set_Version 1 msg in
    rest <- slice_from rest 2 ;;
    parse_structured msg rest
  else parse_legacy msg rest.

(** Lines 51-109: the PRI block and everything nested in it. *)
Definition parse_pri (msg : SyslogMessage) (rest : string) : Outcome Locals :=
  c <- index rest 0 ;;
  if Ascii.eqb c "<" then
    let priEnd := strings_IndexRune rest ">" in
    if (1 <? priEnd) && (priEnd <? 5) then
      digits <- slice rest 1 priEnd ;;
      match strconv_Atoi digits with
      | Some pri =>
          let msg := set_Severity (Z.land pri 7)
                       (set_Facility (Z.shiftr pri 3) msg) in
          rest <- slice_from rest (priEnd + 1) ;;
          parse_version msg rest
      | None => Returned (msg, rest)
      end
    else Returned (msg, rest)
  else Returned (msg, rest).

(** Lines 40-47: the record the parser starts from, [now] being the
    clock reading of line 44. *)
Definition initial (now source : string) : SyslogMessage :=
  {| Version := 0;
     Facility := 0;
     Severity := 5;
     Timestamp := now;
     Hostname := source;
     Tag := "";
     StructuredData := "";
     Message := "";
     Source := source |}.

(** Lines 49-111, after the record is built. *)
Definition parse_body (msg : SyslogMessage) (buf : string)
  : Outcome SyslogMessage :=
  '(msg, rest) <- parse_pri msg buf ;;
  Returned (set_Message rest msg).

(** [func ParseSyslog(buf string, source string) *SyslogMessage] *)
Definition ParseSyslog (buf source : string) : Run SyslogMessage :=
  run_bind time_Now_UTC_String
           (fun now => lift (parse_body (initial now source) buf)).

(** The record as it stands when the PRI stage has succeeded on a run
    that took the reading number [k]. *)
Definition after_pri (pri : Z) (k : nat) (source : string) : SyslogMessage :=
  {| Version := 0; Facility := Z.shiftr pri 3; Severity := Z.land pri 7;
     Timestamp := clock k; Hostname := source; Tag := "";
     StructuredData := ""; Message := ""; Source := source |}.

End Parser.

(** The end of a run: the cursor becomes the Message (line 110). *)
Definition finish (o : Outcome Locals) : Outcome SyslogMessage :=
  '(msg, rest) <- o ;; Returned (set_Message rest msg).

(** What no block after the PRI block writes to. *)
Definition same_pri (m m' : SyslogMessage) : Prop :=
  Facility m' = Facility m /\ Severity m' = Severity m /\ Source m' = Source m
  /\ Message m' = Message m.

(** The decimal form of [p] is one to three bytes, none of them [">"], and
    [Atoi] reads [p] back from it. *)
Definition itoa_ok (p : Z) : bool :=
  let d := strconv_Itoa p in
  Nat.leb 1 (String.length d) && Nat.leb (String.length d) 3
  && match index_byte_from 0 d ">" with None => true | Some _ => false end
  && match strconv_Atoi d with Some v => v =? p | None => false end.

(** The double quote byte, for packets that carry quoted values. *)
Definition dq : string := String "034" "".

(* ================================================================== *)
(** ** The PRI stage, read off lines 52-57

    [pri_stage buf] is [Some (pri, tail)] when the buffer starts with ["<"],
    the first [">"] sits at index 2, 3 or 4 and [strconv.Atoi] accepts the
    bytes in between; [tail] is what follows the [">"]. *)

Definition pri_stage (buf : string) : option (Z * string) :=
  match buf with
  | EmptyString => None
  | String c _ =>
      if Ascii.eqb c "<" then
        let priEnd := strings_IndexRune buf ">" in
        if (1 <? priEnd) && (priEnd <? 5) then
          match strconv_Atoi (take (Z.to_nat (priEnd - 1)) (drop 1 buf)) with
          | Some pri => Some (pri, drop (Z.to_nat (priEnd + 1)) buf)
          | None => None
          end
        else None
      else None
  end.

(** The packet [<p>tail], [p] written in decimal. *)
Definition pri_packet (p : Z) (tail : string) : string :=
  "<" ++ strconv_Itoa p ++ ">" ++ tail.

(** [m] is what is left of [buf] after some prefix is cut off. *)
Definition is_suffix (m buf : string) : Prop :=
  exists prefix, buf = prefix ++ m.

(* ================================================================== *)
(** ** A reference instance of the time interface

    It accepts the canonical fixed-width forms only
    ([YYYY-MM-DDTHH:MM:SS[.fraction](Z|+HH:MM|-HH:MM)] for the two RFC3339
    layouts, [Mon _D HH:MM:SS] for [Stamp]), each of which [time.Parse]
    accepts too, and prints in the layout of [Time.String()],
    ["2006-01-02 15:04:05.999999999 -0700 MST"].  It is used to run the
    parser on concrete packets; no general theorem depends on it. *)

Module RefTime.

Record t : Type := mk {
  date : string;      (* "2015-12-15" *)
  tod : string;       (* "11:54:41" *)
  frac : string;      (* fraction digits, without trailing zeros *)
  zone : string       (* "+0000 UTC", "-0800 -0800" *)
}.

Definition is_digit (c : ascii) : bool :=
  match digit_value c with Some _ => true | None => false end.

Fixpoint all_digits (s : string) : bool :=
  match s with
  | EmptyString => true
  | String c s' => is_digit c && all_digits s'
  end.

Definition field (s : string) (lo n : nat) : string := take n (drop lo s).

Definition byte_is (s : string) (i : nat) (c : ascii) : bool :=
  match String.get i s with
  | Some a => Ascii.eqb a c
  | None => false
  end.

(** A field of exactly [n] digits whose value is in [[lo, hi]]. *)
Definition num_field (s : string) (pos n : nat) (lo hi : Z) : bool :=
  let f := field s pos n in
  Nat.eqb (String.length f) n && all_digits f &&
  match parse_digits 0 f with
  | Some v => (lo <=? v) && (v <=? hi)
  | None => false
  end.

Fixpoint leading_digits (s : string) : string :=
  match s with
  | String c s' => if is_digit c then String c (leading_digits s') else ""
  | EmptyString => ""
  end.

(** Removes the zeros at the end of a digit string. *)
Fixpoint trim_zeros (s : string) : string :=
  match s with
  | EmptyString => ""
  | String c s' =>
      match trim_zeros s' with
      | EmptyString => if Ascii.eqb c "0" then "" else String c ""
      | r => String c r
      end
  end.

Definition zone_of (z : string) : option string :=
  if String.eqb z "Z" then Some "+0000 UTC"
  else if Nat.eqb (String.length z) 6
          && (byte_is z 0 "+" || byte_is z 0 "-")
          && num_field z 1 2 0 23 && byte_is z 3 ":" && num_field z 4 2 0 59
  then let n := field z 0 3 ++ field z 4 2 in Some (n ++ " " ++ n)
  else None.

Definition rfc3339 (s : string) : option t :=
  if num_field s 0 4 0 9999 && byte_is s 4 "-" && num_field s 5 2 1 12
     && byte_is s 7 "-" && num_field s 8 2 1 31 && byte_is s 10 "T"
     && num_field s 11 2 0 23 && byte_is s 13 ":" && num_field s 14 2 0 59
     && byte_is s 16 ":" && num_field s 17 2 0 59
  then
    let after := drop 19 s in
    match after with
    | String "." f =>
        let ds := leading_digits f in
        if (Nat.leb 1 (String.length ds)) && (Nat.leb (String.length ds) 9)
        then match zone_of (drop (String.length ds) f) with
             | Some z => Some (mk (field s 0 10) (field s 11 8) (trim_zeros ds) z)
             | None => None
             end
        else None
    | _ => match zone_of after with
           | Some z => Some (mk (field s 0 10) (field s 11 8) "" z)
           | None => None
           end
    end
  else None.

Definition months : list (string * string) :=
  [("Jan", "01"); ("Feb", "02"); ("Mar", "03"); ("Apr", "04");
   ("May", "05"); ("Jun", "06"); ("Jul", "07"); ("Aug", "08");
   ("Sep", "09"); ("Oct", "10"); ("Nov", "11"); ("Dec", "12")].

Fixpoint lookup_month (name : string) (l : list (string * string))
  : option string :=
  match l with
  | [] => None
  | (n, v) :: l' => if String.eqb n name then Some v else lookup_month name l'
  end.

Definition stamp (s : string) : option t :=
  if Nat.eqb (String.length s) 15 && byte_is s 3 " " && byte_is s 6 " "
     && (num_field s 4 2 1 31
         || (byte_is s 4 " " && num_field s 5 1 1 9))
     && num_field s 7 2 0 23 && byte_is s 9 ":" && num_field s 10 2 0 59
     && byte_is s 12 ":" && num_field s 13 2 0 59
  then
    match lookup_month (field s 0 3) months with
    | Some m =>
        let day := if byte_is s 4 " " then "0" ++ field s 5 1 else field s 4 2 in
        Some (mk ("0000-" ++ m ++ "-" ++ day) (field s 7 8) "" "+0000 UTC")
    | None => None
    end
  else None.

Definition parse (layout : Layout) (value : string) : option t :=
  match layout with
  | RFC3339Nano | RFC3339 => rfc3339 value
  | Stamp => stamp value
  end.

Definition to_string (x : t) : string :=
  date x ++ " " ++ tod x
  ++ (if String.eqb (frac x) "" then "" else "." ++ frac x)
  ++ " " ++ zone x.

Definition parse_nil (layout : Layout) : parse layout "-" = None :=
  match layout with
  | RFC3339Nano => eq_refl
  | RFC3339 => eq_refl
  | Stamp => eq_refl
  end.

Definition lib : TimeLib :=
  {| time_Time := t;
     time_Parse := parse;
     Time_String := to_string;
     time_Parse_nil := parse_nil |}.

(** A clock stuck on one instant. *)
Definition frozen_clock (n : nat) : string :=
  "2015-12-15 20:00:00 +0000 UTC".

Definition run (buf source : string) : Outcome SyslogMessage :=
  result (@ParseSyslog lib frozen_clock buf source 0%nat).

End RefTime.

(** Packets to run the parser on: those of TestParseSyslog and a few
    more. *)
Module Packets.

Definition source : string := "127.0.0.1".

Definition now : string := RefTime.frozen_clock 0.

(** A clock that shows the frozen instant at its reading number 3 only. *)
Definition drifting_clock (n : nat) : string :=
  if Nat.eqb n 3 then RefTime.frozen_clock 0 else "2015-12-15 20:00:01 +0000 UTC".

Definition structured_sd : string :=
  "<13>1 2015-12-15T11:54:41.946675-08:00 host.domain.com user - - "
  ++ "[timeQuality tzKnown=" ++ dq ++ "1" ++ dq ++ " isSynced=" ++ dq ++ "1"
  ++ dq ++ " syncAccuracy=" ++ dq ++ "380797" ++ dq ++ "] message".

Definition legacy : string := "<13>Dec 15 11:55:02 host user: message".

Definition nil_timestamp : string :=
  "<13>1 - host.domain.com user - - - message".

Definition structured_nil_sd : string :=
  "<13>1 2015-12-15T11:56:01.776597-08:00 host.domain.com user - - - message".

Definition short_split : string := "<13>1 2015-12-15T11:54:41Z [ab] msg".

End Packets.

(* ================================================================== *)
(** ** IngestMessage (lines 116-151)

    The attributes handed to journald are a Go [map[string]string]; the
    call of [journal.Send] and the [log.Println] of its error are the two
    effects of the function, listed in the order they happen.  Package
    journal is outside of this repository: [journal.Send] is a parameter,
    giving [None] for a nil error and the text of the error otherwise.
    The program leaves the standard logger at its default flags, under
    which [log.Println] stamps its line with [time.Now()]: a logged error
    costs one more reading of the clock. *)

(** [map[string]string]: every key is bound at most once. *)
Definition Vars : Type := list (string * string).

(** [m[key]], [None] for a missing key. *)
Fixpoint vars_get (m : Vars) (key : string) : option string :=
  match m with
  | [] => None
  | (k, v) :: m' => if String.eqb k key then Some v else vars_get m' key
  end.

(** [m[key] = value]: a binding of [key] already there is replaced. *)
Definition vars_set (key value : string) (m : Vars) : Vars :=
  (key, value) :: filter (fun kv => negb (String.eqb (fst kv) key)) m.

Inductive Effect : Type :=
| JournalSend (message : string) (priority : Z) (vars : Vars)
| LogPrintln (line : string).

(** Lines 119-145: the map literal and the four guarded assignments. *)
Definition ingest_vars (msg : SyslogMessage) : Vars :=
  let vars :=
    [ ("SYSLOG_VERSION", strconv_Itoa (Version msg));
      ("SYSLOG_FACILITY", strconv_Itoa (Facility msg));
      ("SYSLOG_SEVERITY", strconv_Itoa (Severity msg));
      ("SYSLOG_IDENTIFIER", strings_Join [Hostname msg; Tag msg] " ") ] in
  let vars :=
    if 0 <? len (Timestamp msg)
    then vars_set "SYSLOG_TIMESTAMP" (Timestamp msg) vars else vars in
  let vars :=
    if 0 <? len (Hostname msg)
    then vars_set "SYSLOG_HOSTNAME" (Hostname msg) vars else vars in
  let vars :=
    if 0 <? len (Source msg)
    then vars_set "SYSLOG_SOURCE" (Source msg) vars else vars in
  if 0 <? len (StructuredData msg)
  then vars_set "SYSLOG_STRUCTURED_DATA" (StructuredData msg) vars else vars.

Section Ingest.

Context {TL : TimeLib}.

Variable clock : nat -> string.

(** [journal.Send(message, priority, vars)] *)
Variable journal_Send : string -> Z -> Vars -> option string.

(** [log.Println(err)] on the standard logger: the line, and the reading
    of the clock its time stamp takes. *)
Definition log_Println (line : string) : Run (list Effect) :=
  fun k => (Returned [LogPrintln line], S k).

(** Lines 147-150: the send, and the log line when it fails. *)
Definition send_and_log (msg : SyslogMessage) : Run (list Effect) :=
  let vars := ingest_vars msg in
  match journal_Send (Message msg) (Severity msg) vars with
  | Some err =>
      run_bind (log_Println err)
               (fun logged =>
                  lift (Returned (JournalSend (Message msg) (Severity msg) vars
                                    :: logged)))
  | None => lift (Returned [JournalSend (Message msg) (Severity msg) vars])
  end.

(** [func IngestMessage(buf string, source string)] *)
Definition IngestMessage (buf source : string) : Run (list Effect) :=
  run_bind (ParseSyslog clock buf source) send_and_log.

End Ingest.

(** [s] holds no space: it is one field of a split on spaces. *)
Definition no_space (s : string) : Prop := index_byte_from 0 s " " = None.

(** What follows the PRI in a structured packet: the version digit, one
    more byte, the timestamp token and, separated by single spaces, four
    fields and the rest. *)
Definition structured_tail
    (c : ascii) (tok host app procid msgid rest : string) : string :=
  String "1" (String c
    (tok ++ String " " (host ++ String " " (app ++ String " "
       (procid ++ String " " (msgid ++ String " " rest)))))).

(** What follows the PRI in a legacy packet: 15 bytes of stamp, one more
    byte, two fields and the rest. *)
Definition legacy_tail (stamp : string) (c : ascii) (host tag rest : string)
  : string :=
  stamp ++ String c (host ++ String " " (tag ++ String " " rest)).

(** The numbers a returned record can hold in Version, Facility and
    Severity all go through [Itoa] and back through [Atoi] unchanged. *)
Definition itoa_round_trip (i : Z) : bool :=
  match strconv_Atoi (strconv_Itoa i) with
  | Some v => v =? i
  | None => false
  end.

(** [tok] is a run of consecutive bytes of [buf]. *)
Definition is_infix (tok buf : string) : Prop :=
  exists before after, buf = before ++ tok ++ after.

(** [Timestamp m] is the printed form of the instant [time.Parse] gave,
    under one of the layouts of the grammar at hand, for the bytes [tok]
    the cursor [rest] starts with. *)
Definition parsed_timestamp {TL : TimeLib}
    (legacy : bool) (rest : string) (m : SyslogMessage) : Prop :=
  exists layout tok ts after,
    rest = tok ++ after
    /\ (if legacy then layout = Stamp
        else layout = RFC3339Nano \/ layout = RFC3339)
    /\ time_Parse layout tok = Some ts
    /\ Timestamp m = Time_String ts.

(** The three things the blocks after the PRI write besides the cursor:
    a Timestamp printed from a parsed instant, a Hostname cut out as a
    field, a structured-data element without its closing bracket. *)
Definition written_after_pri {TL : TimeLib}
    (legacy : bool) (rest : string) (m m' : SyslogMessage) : Prop :=
  (Timestamp m' = Timestamp m \/ parsed_timestamp legacy rest m')
  /\ (Hostname m' = Hostname m \/ no_space (Hostname m'))
  /\ (StructuredData m' = StructuredData m
      \/ exists sd, StructuredData m' = String "[" sd /\ sd <> ""
                    /\ index_byte_from 0 sd "]" = None).

(** Two outcomes of a block started from two records that differ in
    Timestamp only, [t1] in the one and [t2] in the other: the same panic,
    or the same cursor with either the same record (the Timestamp was
    overwritten) or two records that still differ by [t1] and [t2] only. *)
Definition same_up_to_default
    (t1 t2 : string) (o1 o2 : Outcome Locals) : Prop :=
  match o1, o2 with
  | Returned (m1, r1), Returned (m2, r2) =>
      r1 = r2
      /\ (m1 = m2
          \/ exists m, m1 = set_Timestamp t1 m /\ m2 = set_Timestamp t2 m)
  | Panicked e1, Panicked e2 => e1 = e2
  | _, _ => False
  end.

(** The reference instance in a process whose local time zone is PST, 8
    hours west of UTC all year ([TZ=PST8]): [time.Parse] places an instant
    read with the offset of the local zone in the local location, and
    [Time.String()] then prints the name of the zone after the offset. *)
Module RefTimePST8.

Definition localise (x : RefTime.t) : RefTime.t :=
  if String.eqb (RefTime.zone x) "-0800 -0800"
  then RefTime.mk (RefTime.date x) (RefTime.tod x) (RefTime.frac x) "-0800 PST"
  else x.

Definition parse (layout : Layout) (value : string) : option RefTime.t :=
  match RefTime.parse layout value with
  | Some x => Some (localise x)
  | None => None
  end.

Definition parse_nil (layout : Layout) : parse layout "-" = None :=
  match layout with
  | RFC3339Nano => eq_refl
  | RFC3339 => eq_refl
  | Stamp => eq_refl
  end.

Definition lib : TimeLib :=
  {| time_Time := RefTime.t;
     time_Parse := parse;
     Time_String := RefTime.to_string;
     time_Parse_nil := parse_nil |}.

End RefTimePST8.

(** A journal that takes every entry, and one that refuses them all. *)
Module Journal.

Definition up (message : string) (priority : Z) (vars : Vars) : option string :=
  None.

Definition down (message : string) (priority : Z) (vars : Vars)
  : option string :=
  Some "dial unixgram /run/systemd/journal/socket: connect: connection refused".

End Journal.

(* ================================================================== *)
(** * Theorems *)

(** ** Strings *)

Lemma length_app (a b : string) :
  String.length (a ++ b) = (String.length a + String.length b)%nat.
Proof. induction a as [|c a IH]; simpl; [reflexivity | now rewrite IH]. Qed.

Lemma app_assoc_s (a b c : string) : (a ++ b) ++ c = a ++ b ++ c.
Proof. induction a as [|x a IH]; simpl; [reflexivity | now rewrite IH]. Qed.

Lemma take_drop (n : nat) (s : string) : take n s ++ drop n s = s.
Proof.
  revert s; induction n as [|n IH]; intros [|c s]; simpl; try reflexivity.
  now rewrite IH.
Qed.

Lemma take_app (a b : string) : take (String.length a) (a ++ b) = a.
Proof. induction a as [|c a IH]; simpl; [now destruct b | now rewrite IH]. Qed.

Lemma drop_app (a b : string) : drop (String.length a) (a ++ b) = b.
Proof. induction a as [|c a IH]; simpl; [reflexivity | exact IH]. Qed.

Lemma take_all (n : nat) (s : string) :
  (String.length s <= n)%nat -> take n s = s.
Proof.
  revert s; induction n as [|n IH]; intros [|c s]; simpl; intros H;
    try reflexivity; try lia.
  rewrite IH; [reflexivity | lia].
Qed.

Lemma length_take (n : nat) (s : string) :
  (n <= String.length s)%nat -> String.length (take n s) = n.
Proof.
  revert s; induction n as [|n IH]; intros [|c s]; simpl; intros H;
    try reflexivity; try lia.
  rewrite IH; [reflexivity | lia].
Qed.

Lemma length_drop (n : nat) (s : string) :
  String.length (drop n s) = (String.length s - n)%nat.
Proof.
  revert s; induction n as [|n IH]; intros [|c s]; simpl; try reflexivity.
  apply IH.
Qed.

Lemma drop_drop (n m : nat) (s : string) :
  drop n (drop m s) = drop (m + n) s.
Proof.
  revert s; induction m as [|m IH]; intros s; simpl; [reflexivity|].
  destruct s as [|c s]; [now destruct n | apply IH].
Qed.

Lemma len_nonneg (s : string) : 0 <= len s.
Proof. unfold len; lia. Qed.

Lemma len_cons (c : ascii) (s : string) : len (String c s) = 1 + len s.
Proof. unfold len; simpl String.length; lia. Qed.

(** ** Suffixes *)

Lemma is_suffix_refl (s : string) : is_suffix s s.
Proof. now exists "". Qed.

Lemma is_suffix_trans (a b c : string) :
  is_suffix a b -> is_suffix b c -> is_suffix a c.
Proof.
  intros [p ->] [q ->]. exists (q ++ p). now rewrite app_assoc_s.
Qed.

Lemma is_suffix_drop (n : nat) (s : string) : is_suffix (drop n s) s.
Proof. exists (take n s). symmetry; apply take_drop. Qed.

(** ** Indexing and slicing *)

Lemma index_empty (i : Z) : index "" i = Panicked IndexOutOfRange.
Proof.
  unfold index. destruct ((0 <=? i) && (i <? len "")) eqn:E; [|reflexivity].
  unfold len in E; simpl in E. lia.
Qed.

Lemma index_0_cons (c : ascii) (s : string) : index (String c s) 0 = Returned c.
Proof.
  unfold index. rewrite len_cons.
  pose proof (len_nonneg s).
  destruct ((0 <=? 0) && (0 <? 1 + len s)) eqn:E; [reflexivity | lia].
Qed.

Lemma slice_ok (s : string) (lo hi : Z) :
  0 <= lo <= hi -> hi <= len s ->
  slice s lo hi = Returned (take (Z.to_nat (hi - lo)) (drop (Z.to_nat lo) s)).
Proof.
  intros H1 H2. unfold slice.
  destruct ((0 <=? lo) && (lo <=? hi) && (hi <=? len s)) eqn:E;
    [reflexivity | lia].
Qed.

Lemma slice_panics (s : string) (lo hi : Z) :
  lo < 0 \/ hi < lo \/ len s < hi ->
  slice s lo hi = Panicked SliceBoundsOutOfRange.
Proof.
  intros H. unfold slice.
  destruct ((0 <=? lo) && (lo <=? hi) && (hi <=? len s)) eqn:E;
    [lia | reflexivity].
Qed.

Lemma slice_from_ok (s : string) (lo : Z) :
  0 <= lo <= len s -> slice_from s lo = Returned (drop (Z.to_nat lo) s).
Proof.
  intros H. unfold slice_from. rewrite slice_ok by lia.
  f_equal. apply take_all. rewrite length_drop. unfold len in *. lia.
Qed.

Lemma slice_from_panics (s : string) (lo : Z) :
  len s < lo -> slice_from s lo = Panicked SliceBoundsOutOfRange.
Proof. intros H. apply slice_panics. lia. Qed.

Lemma slice_to_ok (s : string) (hi : Z) :
  0 <= hi <= len s -> slice_to s hi = Returned (take (Z.to_nat hi) s).
Proof.
  intros H. unfold slice_to. rewrite slice_ok by lia.
  now rewrite Z.sub_0_r.
Qed.

Lemma slice_to_panics (s : string) (hi : Z) :
  len s < hi -> slice_to s hi = Panicked SliceBoundsOutOfRange.
Proof. intros H. apply slice_panics. lia. Qed.

Lemma slice_from_returned (s r : string) (lo : Z) :
  slice_from s lo = Returned r -> 0 <= lo <= len s /\ r = drop (Z.to_nat lo) s.
Proof.
  intros H.
  destruct (Z_lt_le_dec lo 0) as [L|L].
  { unfold slice_from in H. rewrite slice_panics in H by lia. discriminate. }
  destruct (Z_lt_le_dec (len s) lo) as [G|G].
  { rewrite slice_from_panics in H by lia. discriminate. }
  rewrite slice_from_ok in H by lia. now inversion H.
Qed.

Lemma slice_from_suffix (s r : string) (lo : Z) :
  slice_from s lo = Returned r -> is_suffix r s.
Proof.
  intros H. apply slice_from_returned in H as [_ ->]. apply is_suffix_drop.
Qed.

Lemma bind_returned {A B : Type} (o : Outcome A) (f : A -> Outcome B) (b : B) :
  bind o f = Returned b -> exists a, o = Returned a /\ f a = Returned b.
Proof. destruct o as [a|e]; simpl; [eauto | discriminate]. Qed.

(** ** strings.IndexRune *)

Lemma index_byte_from_shift (i : nat) (s : string) (c : ascii) :
  index_byte_from i s c = option_map (Nat.add i) (index_byte_from 0 s c).
Proof.
  revert i; induction s as [|a s IH]; intros i; simpl; [reflexivity|].
  destruct (Ascii.eqb a c).
  - simpl. f_equal. lia.
  - rewrite (IH (S i)), (IH 1%nat).
    destruct (index_byte_from 0 s c); simpl; [f_equal; lia | reflexivity].
Qed.

Lemma index_byte_cons (a : ascii) (s : string) (c : ascii) :
  index_byte_from 0 (String a s) c =
  if Ascii.eqb a c then Some 0%nat
  else option_map S (index_byte_from 0 s c).
Proof. simpl. destruct (Ascii.eqb a c); [reflexivity|]. apply index_byte_from_shift. Qed.

(** Where [IndexRune] finds the byte: it is there, and not before. *)
Lemma index_byte_found (s : string) (c : ascii) (m : nat) :
  index_byte_from 0 s c = Some m ->
  s = take m s ++ String c (drop (S m) s)
  /\ index_byte_from 0 (take m s) c = None
  /\ (m < String.length s)%nat.
Proof.
  revert m; induction s as [|a s IH]; intros m H; [discriminate|].
  rewrite index_byte_cons in H.
  destruct (Ascii.eqb a c) eqn:E.
  - inversion H; subst m. apply Ascii.eqb_eq in E; subst a.
    simpl. repeat split; lia.
  - destruct (index_byte_from 0 s c) as [m'|] eqn:F; [|discriminate].
    inversion H; subst m. destruct (IH m' eq_refl) as (H1 & H2 & H3).
    simpl take. simpl drop in *. repeat split.
    + simpl. now rewrite <- H1.
    + rewrite index_byte_cons, E, H2. reflexivity.
    + simpl. lia.
Qed.

(** The first occurrence in [a ++ c :: b] when [a] is free of [c]. *)
Lemma index_byte_app (a b : string) (c : ascii) :
  index_byte_from 0 a c = None ->
  index_byte_from 0 (a ++ String c b) c = Some (String.length a).
Proof.
  induction a as [|x a IH]; intros H.
  - simpl. now rewrite Ascii.eqb_refl.
  - rewrite index_byte_cons in H. simpl append. rewrite index_byte_cons.
    destruct (Ascii.eqb x c); [discriminate|].
    destruct (index_byte_from 0 a c); [discriminate|].
    now rewrite IH.
Qed.

Lemma IndexRune_range (s : string) (c : ascii) :
  -1 <= strings_IndexRune s c < len s.
Proof.
  unfold strings_IndexRune, len.
  destruct (index_byte_from 0 s c) as [m|] eqn:E.
  - apply index_byte_found in E as (_ & _ & H). lia.
  - lia.
Qed.

Lemma IndexRune_found (s : string) (c : ascii) (e : Z) :
  0 <= e -> strings_IndexRune s c = e ->
  index_byte_from 0 s c = Some (Z.to_nat e).
Proof.
  unfold strings_IndexRune. intros H E.
  destruct (index_byte_from 0 s c) as [m|]; [|lia].
  subst e. now rewrite Nat2Z.id.
Qed.

(** ** strings.SplitN *)

Arguments take : simpl nomatch.
Arguments drop : simpl nomatch.

Lemma genSplit_nonempty (k : nat) (s : string) (sep : ascii) :
  genSplit k s sep <> [].
Proof.
  destruct k; simpl; [discriminate|].
  destruct (index_byte_from 0 s sep); discriminate.
Qed.

(** No more than [n] parts come out of [SplitN(s, sep, n)]. *)
Lemma genSplit_length (k : nat) (s : string) (sep : ascii) :
  (1 <= List.length (genSplit k s sep) <= S k)%nat.
Proof.
  revert s; induction k as [|k IH]; intros s; cbn [genSplit List.length]; [lia|].
  destruct (index_byte_from 0 s sep) as [m|]; cbn [List.length]; [|lia].
  specialize (IH (drop (S m) s)). lia.
Qed.

(** The last part is the unsplit remainder: a suffix of the input. *)
Lemma genSplit_last_suffix (k : nat) (s : string) (sep : ascii) (i : nat) :
  List.length (genSplit k s sep) = S i ->
  is_suffix (part (genSplit k s sep) i) s.
Proof.
  unfold part.
  revert s i; induction k as [|k IH]; intros s i H.
  - simpl in *. inversion H; subst i. apply is_suffix_refl.
  - simpl in *. destruct (index_byte_from 0 s sep) as [m|].
    + cbn [List.length] in H. apply eq_add_S in H.
      destruct i as [|i].
      { exfalso. apply (genSplit_nonempty k (drop (S m) s) sep).
        now apply length_zero_iff_nil. }
      cbn [nth]. eapply is_suffix_trans; [apply IH; exact H | apply is_suffix_drop].
    + simpl in H. inversion H; subst i. apply is_suffix_refl.
Qed.

(** The parts, put back together with the separator, give the input. *)
Lemma genSplit_join (k : nat) (s : string) (sep : ascii) :
  strings_Join (genSplit k s sep) (String sep "") = s.
Proof.
  revert s; induction k as [|k IH]; intros s; simpl; [reflexivity|].
  destruct (index_byte_from 0 s sep) as [m|] eqn:E; [|reflexivity].
  apply index_byte_found in E as (E1 & _ & _).
  specialize (IH (drop (S m) s)).
  destruct (genSplit k (drop (S m) s) sep) as [|x l] eqn:G.
  { now apply genSplit_nonempty in G. }
  change (take m s ++ String sep "" ++ strings_Join (x :: l) (String sep "") = s).
  rewrite IH. simpl. now rewrite <- E1.
Qed.

(** ** strconv.Atoi *)

Lemma digit_value_range (c : ascii) (d : Z) :
  digit_value c = Some d -> 0 <= d <= 9.
Proof.
  unfold digit_value. intros H.
  destruct ((48 <=? Z.of_nat (nat_of_ascii c)) && (Z.of_nat (nat_of_ascii c) <=? 57)) eqn:E;
    [|discriminate].
  inversion H. lia.
Qed.

Lemma parse_digits_range (s : string) (n v : Z) :
  parse_digits n s = Some v ->
  n * 10 ^ len s <= v < (n + 1) * 10 ^ len s.
Proof.
  revert n v; induction s as [|c s IH]; intros n v H.
  - simpl in H. inversion H; subst. unfold len; simpl. lia.
  - simpl in H. destruct (digit_value c) as [d|] eqn:D; [|discriminate].
    apply digit_value_range in D. apply IH in H.
    rewrite len_cons. pose proof (len_nonneg s).
    rewrite Z.pow_add_r by lia. change (10 ^ 1) with 10.
    assert (0 < 10 ^ len s) by (apply Z.pow_pos_nonneg; lia).
    nia.
Qed.

(** The values [Atoi] can give on at most three bytes. *)
Lemma Atoi_three_bytes (s : string) (v : Z) :
  (String.length s <= 3)%nat -> strconv_Atoi s = Some v -> -99 <= v <= 999.
Proof.
  intros L H. destruct s as [|c s]; [discriminate|].
  unfold strconv_Atoi in H.
  set (ds := if (Ascii.eqb c "-" || Ascii.eqb c "+")%bool then s else String c s) in H.
  assert (Lds : (String.length ds <= 3)%nat).
  { subst ds. destruct (Ascii.eqb c "-" || Ascii.eqb c "+")%bool; simpl in *; lia. }
  assert (Neg : Ascii.eqb c "-" = true -> (String.length ds <= 2)%nat).
  { intros N. subst ds. rewrite N. simpl in *. lia. }
  destruct ds as [|c' ds'] eqn:Eds; [discriminate|].
  destruct (parse_digits 0 (String c' ds')) as [n|] eqn:P; [|discriminate].
  apply parse_digits_range in P.
  assert (B3 : 10 ^ len (String c' ds') <= 1000).
  { change 1000 with (10 ^ 3). apply Z.pow_le_mono_r; unfold len; lia. }
  destruct (Ascii.eqb c "-") eqn:N.
  - specialize (Neg eq_refl).
    assert (B2 : 10 ^ len (String c' ds') <= 100).
    { change 100 with (10 ^ 2). apply Z.pow_le_mono_r; unfold len; lia. }
    destruct ((int_min <=? - n) && (- n <=? int_max)); [|discriminate].
    inversion H. lia.
  - destruct ((int_min <=? n) && (n <=? int_max)); [|discriminate].
    inversion H. lia.
Qed.

(* ================================================================== *)
(** ** The blocks of ParseSyslog *)

Lemma same_pri_refl (m : SyslogMessage) : same_pri m m.
Proof. now repeat split. Qed.

Lemma same_pri_trans (a b c : SyslogMessage) :
  same_pri a b -> same_pri b c -> same_pri a c.
Proof. unfold same_pri. intuition congruence. Qed.

Create HintDb parser.
#[local] Hint Resolve same_pri_refl is_suffix_refl : parser.

Ltac inv_bind H :=
  let a := fresh "a" in
  let Ha := fresh "Ha" in
  apply bind_returned in H as (a & Ha & H).

Ltac inv_returned H := inversion H; subst; clear H.

Section ParserFacts.

Context {TL : TimeLib}.
Variable clock : nat -> string.

(** One run reads the clock once, first, and is otherwise a function of
    the buffer, the source and that reading. *)
Lemma ParseSyslog_run (buf source : string) (k : nat) :
  ParseSyslog clock buf source k =
  (parse_body (initial (clock k) source) buf, S k).
Proof. reflexivity. Qed.

(** *** The structured-data block *)

Lemma parse_sd_frame (msg m' : SyslogMessage) (rest r' : string) :
  parse_sd msg rest = Returned (m', r') ->
  is_suffix r' rest /\ same_pri msg m' /\ Version m' = Version msg
  /\ Hostname m' = Hostname msg /\ Tag m' = Tag msg
  /\ Timestamp m' = Timestamp msg.
Proof.
  unfold parse_sd. intros H. inv_bind H.
  destruct (Ascii.eqb a "[").
  - destruct (1 <? strings_IndexRune rest "]").
    + inv_bind H. inv_bind H. inv_returned H.
      apply slice_from_suffix in Ha1. repeat split; auto.
    + inv_returned H. repeat split; auto with parser.
  - inv_returned H. repeat split; auto with parser.
Qed.

(** Not starting with ["["]: nothing happens. *)
Lemma parse_sd_plain (msg : SyslogMessage) (c : ascii) (rest : string) :
  c <> "["%char ->
  parse_sd msg (String c rest) = Returned (msg, String c rest).
Proof.
  intros N. unfold parse_sd. rewrite index_0_cons. cbn [bind].
  apply Ascii.eqb_neq in N. now rewrite N.
Qed.

(** Starting with ["["], no ["]"] past index 1: nothing happens. *)
Lemma parse_sd_unclosed (msg : SyslogMessage) (rest : string) :
  strings_IndexRune (String "[" rest) "]" <= 1 ->
  parse_sd msg (String "[" rest) = Returned (msg, String "[" rest).
Proof.
  intros N. unfold parse_sd. rewrite index_0_cons. cbn [bind].
  rewrite Ascii.eqb_refl.
  destruct (1 <? strings_IndexRune (String "[" rest) "]") eqn:E;
    [lia | reflexivity].
Qed.

(** Starting with ["["], a ["]"] at [sdEnd > 1] and two more bytes to
    skip: the element is captured without its closing bracket. *)
Lemma parse_sd_captured (msg : SyslogMessage) (rest : string) (sdEnd : Z) :
  strings_IndexRune (String "[" rest) "]" = sdEnd ->
  1 < sdEnd -> sdEnd + 2 <= len (String "[" rest) ->
  parse_sd msg (String "[" rest) =
  Returned (set_StructuredData (take (Z.to_nat sdEnd) (String "[" rest)) msg,
            drop (Z.to_nat (sdEnd + 2)) (String "[" rest)).
Proof.
  intros E G L. unfold parse_sd. rewrite index_0_cons. cbn [bind].
  rewrite Ascii.eqb_refl, E.
  destruct (1 <? sdEnd) eqn:E1; [|lia].
  rewrite slice_to_ok by lia. cbn [bind].
  rewrite slice_from_ok by lia. reflexivity.
Qed.

(** ... and when the ["]"] is the last byte, the skip runs off the end. *)
Lemma parse_sd_overrun (msg : SyslogMessage) (rest : string) (sdEnd : Z) :
  strings_IndexRune (String "[" rest) "]" = sdEnd ->
  1 < sdEnd -> len (String "[" rest) < sdEnd + 2 ->
  parse_sd msg (String "[" rest) = Panicked SliceBoundsOutOfRange.
Proof.
  intros E G L. unfold parse_sd. rewrite index_0_cons. cbn [bind].
  rewrite Ascii.eqb_refl, E.
  destruct (1 <? sdEnd) eqn:E1; [|lia].
  pose proof (IndexRune_range (String "[" rest) "]").
  rewrite slice_to_ok by lia. cbn [bind].
  rewrite slice_from_panics by lia. reflexivity.
Qed.

(** *** The structured grammar *)

Lemma parse_structured_frame (msg m' : SyslogMessage) (rest r' : string) :
  parse_structured msg rest = Returned (m', r') ->
  is_suffix r' rest /\ same_pri msg m' /\ Version m' = Version msg.
Proof.
  unfold parse_structured. intros H.
  destruct (0 <=? strings_IndexRune rest " ");
    [|inv_returned H; auto with parser].
  inv_bind H.
  destruct (parse_rfc3339 a) as [ts|]; [|inv_returned H; auto with parser].
  inv_bind H. apply slice_from_suffix in Ha0.
  destruct (Nat.eqb (List.length (strings_SplitN a0 " " 5)) 5) eqn:E.
  - apply Nat.eqb_eq in E.
    apply parse_sd_frame in H as (S1 & S2 & V & _).
    split; [|split].
    + eapply is_suffix_trans; [exact S1|].
      eapply is_suffix_trans; [|exact Ha0].
      apply (genSplit_last_suffix 4 a0 " " 4 E).
    + eapply same_pri_trans; [|exact S2]. now repeat split.
    + exact V.
  - apply parse_sd_frame in H as (S1 & S2 & V & _).
    split; [|split].
    + eapply is_suffix_trans; eassumption.
    + eapply same_pri_trans; [|exact S2]. now repeat split.
    + exact V.
Qed.

(** *** The legacy grammar *)

Lemma parse_legacy_frame (msg m' : SyslogMessage) (rest r' : string) :
  parse_legacy msg rest = Returned (m', r') ->
  is_suffix r' rest /\ same_pri msg m' /\ Version m' = Version msg.
Proof.
  unfold parse_legacy. intros H. inv_bind H.
  destruct (time_Parse Stamp a) as [ts|]; [|inv_returned H; auto with parser].
  inv_bind H. apply slice_from_suffix in Ha0.
  destruct (Nat.eqb (List.length (strings_SplitN a0 " " 3)) 3) eqn:E.
  - apply Nat.eqb_eq in E. inv_returned H.
    split; [|split]; [|now repeat split|reflexivity].
    eapply is_suffix_trans; [|exact Ha0].
    apply (genSplit_last_suffix 2 a0 " " 2 E).
  - inv_returned H. split; [|split]; [assumption|now repeat split|reflexivity].
Qed.

(** *** The version test *)

Lemma parse_version_frame (msg m' : SyslogMessage) (rest r' : string) :
  parse_version msg rest = Returned (m', r') ->
  is_suffix r' rest /\ same_pri msg m'
  /\ exists c tl, rest = String c tl
     /\ Version m' = if Ascii.eqb c "1" then 1 else Version msg.
Proof.
  unfold parse_version. intros H.
  destruct rest as [|c tl]; [rewrite index_empty in H; discriminate|].
  rewrite index_0_cons in H. cbn [bind] in H.
  destruct (Ascii.eqb c "1") eqn:E.
  - inv_bind H. apply slice_from_suffix in Ha.
    apply parse_structured_frame in H as (S1 & S2 & V).
    split; [|split].
    + eapply is_suffix_trans; eassumption.
    + eapply same_pri_trans; [|exact S2]. now repeat split.
    + exists c, tl. now rewrite E, V.
  - apply parse_legacy_frame in H as (S1 & S2 & V).
    split; [|split]; [assumption..|].
    exists c, tl. now rewrite E.
Qed.

End ParserFacts.

(* ================================================================== *)
(** ** The PRI stage *)

(** [pri_stage] succeeds exactly on the buffers [<digits>tail] with one to
    three bytes between the brackets, none of them [">"], that [Atoi]
    accepts. *)
Lemma pri_stage_intro (digits tail : string) (pri : Z) :
  (1 <= String.length digits <= 3)%nat ->
  index_byte_from 0 digits ">" = None ->
  strconv_Atoi digits = Some pri ->
  pri_stage (String "<" (digits ++ String ">" tail)) = Some (pri, tail).
Proof.
  intros L N A. unfold pri_stage. rewrite Ascii.eqb_refl.
  assert (Ll : 1 <= len digits <= 3) by (unfold len; lia).
  assert (E : strings_IndexRune (String "<" (digits ++ String ">" tail)) ">"
              = 1 + len digits).
  { unfold strings_IndexRune, len. rewrite index_byte_cons.
    change (Ascii.eqb "<" ">") with false. cbv iota.
    rewrite (index_byte_app digits tail ">" N). cbn [option_map]. lia. }
  rewrite E.
  destruct ((1 <? 1 + len digits) && (1 + len digits <? 5)) eqn:C; [|lia].
  replace (Z.to_nat (1 + len digits - 1)) with (String.length digits)
    by (unfold len; lia).
  replace (Z.to_nat (1 + len digits + 1)) with (S (S (String.length digits)))
    by (unfold len; lia).
  change (drop 1 (String "<" (digits ++ String ">" tail)))
    with (digits ++ String ">" tail).
  rewrite take_app, A.
  change (drop (S (S (String.length digits))) (String "<" (digits ++ String ">" tail)))
    with (drop (S (String.length digits)) (digits ++ String ">" tail)).
  replace (S (String.length digits)) with (String.length digits + 1)%nat by lia.
  now rewrite <- drop_drop, drop_app.
Qed.

Lemma pri_stage_elim (buf tail : string) (pri : Z) :
  pri_stage buf = Some (pri, tail) ->
  exists digits,
    buf = String "<" (digits ++ String ">" tail)
    /\ (1 <= String.length digits <= 3)%nat
    /\ index_byte_from 0 digits ">" = None
    /\ strconv_Atoi digits = Some pri.
Proof.
  intros H. destruct buf as [|c b]; [discriminate|].
  unfold pri_stage in H.
  destruct (Ascii.eqb c "<") eqn:C; [|discriminate].
  apply Ascii.eqb_eq in C; subst c.
  set (e := strings_IndexRune (String "<" b) ">") in *.
  destruct ((1 <? e) && (e <? 5)) eqn:R; [|discriminate].
  assert (F : index_byte_from 0 (String "<" b) ">" = Some (Z.to_nat e))
    by (apply IndexRune_found; [lia | reflexivity]).
  rewrite index_byte_cons in F. change (Ascii.eqb "<" ">") with false in F.
  cbv iota in F.
  destruct (index_byte_from 0 b ">") as [m|] eqn:G; [|discriminate].
  inversion F as [F']. clear F.
  apply index_byte_found in G as (G1 & G2 & G3).
  change (drop 1 (String "<" b)) with b in H.
  replace (Z.to_nat (e - 1)) with m in H by lia.
  replace (Z.to_nat (e + 1)) with (S (S m)) in H by lia.
  change (drop (S (S m)) (String "<" b)) with (drop (S m) b) in H.
  destruct (strconv_Atoi (take m b)) as [v|] eqn:A; [|discriminate].
  inversion H; subst v tail. clear H.
  exists (take m b). repeat split.
  - now rewrite <- G1.
  - rewrite length_take; lia.
  - rewrite length_take; lia.
  - exact G2.
  - exact A.
Qed.

(** A buffer that does not start with ["<"] has no PRI. *)
Lemma pri_stage_no_bracket (c : ascii) (s : string) :
  c <> "<"%char -> pri_stage (String c s) = None.
Proof.
  intros N. unfold pri_stage. apply Ascii.eqb_neq in N. now rewrite N.
Qed.

Lemma itoa_ok_all : forallb itoa_ok (map Z.of_nat (seq 0 192)) = true.
Proof. vm_compute. reflexivity. Qed.

Lemma Itoa_pri (p : Z) :
  0 <= p <= 191 ->
  (1 <= String.length (strconv_Itoa p) <= 3)%nat
  /\ index_byte_from 0 (strconv_Itoa p) ">" = None
  /\ strconv_Atoi (strconv_Itoa p) = Some p.
Proof.
  intros H.
  assert (I : In p (map Z.of_nat (seq 0 192))).
  { apply in_map_iff. exists (Z.to_nat p). split; [lia|].
    apply in_seq. lia. }
  pose proof (proj1 (forallb_forall _ _) itoa_ok_all p I) as K.
  unfold itoa_ok in K.
  repeat (apply andb_prop in K as [K ?]).
  destruct (index_byte_from 0 (strconv_Itoa p) ">"); [discriminate|].
  destruct (strconv_Atoi (strconv_Itoa p)) as [v|]; [|discriminate].
  repeat split.
  - now apply Nat.leb_le.
  - now apply Nat.leb_le.
  - f_equal. lia.
Qed.

Lemma pri_stage_packet (p : Z) (tail : string) :
  0 <= p <= 191 -> pri_stage (pri_packet p tail) = Some (p, tail).
Proof.
  intros H. destruct (Itoa_pri p H) as (L & N & A).
  unfold pri_packet. change ("<" ++ strconv_Itoa p ++ ">" ++ tail)
    with (String "<" (strconv_Itoa p ++ String ">" tail)).
  now apply pri_stage_intro.
Qed.

(** The PRI arithmetic: [>> 3] and [& 7] are division and remainder by 8. *)
Lemma pri_arith (pri : Z) :
  Z.shiftr pri 3 = pri / 8 /\ Z.land pri 7 = pri mod 8
  /\ Z.shiftr pri 3 * 8 + Z.land pri 7 = pri.
Proof.
  assert (S3 : Z.shiftr pri 3 = pri / 8)
    by (rewrite Z.shiftr_div_pow2 by lia; reflexivity).
  assert (L7 : Z.land pri 7 = pri mod 8)
    by (change 7 with (Z.ones 3); rewrite Z.land_ones by lia; reflexivity).
  rewrite S3, L7. repeat split.
  pose proof (Z.div_mod pri 8). lia.
Qed.

Section PriFacts.

Context {TL : TimeLib}.
Variable clock : nat -> string.

(** The PRI block, in terms of [pri_stage]. *)
Lemma parse_pri_spec (msg : SyslogMessage) (buf : string) :
  parse_pri msg buf =
  match buf with
  | EmptyString => Panicked IndexOutOfRange
  | String _ _ =>
      match pri_stage buf with
      | Some (pri, tail) =>
          parse_version (set_Severity (Z.land pri 7)
                           (set_Facility (Z.shiftr pri 3) msg)) tail
      | None => Returned (msg, buf)
      end
  end.
Proof.
  destruct buf as [|c b]; [unfold parse_pri; now rewrite index_empty|].
  unfold parse_pri, pri_stage. rewrite index_0_cons. cbn [bind].
  destruct (Ascii.eqb c "<"); [|reflexivity].
  set (e := strings_IndexRune (String c b) ">").
  pose proof (IndexRune_range (String c b) ">") as R. fold e in R.
  destruct ((1 <? e) && (e <? 5)) eqn:C; [|reflexivity].
  rewrite slice_ok by lia. cbn [bind].
  change (Z.to_nat 1) with 1%nat.
  destruct (strconv_Atoi (take (Z.to_nat (e - 1)) (drop 1 (String c b))));
    [|reflexivity].
  rewrite slice_from_ok by lia. reflexivity.
Qed.

(** What a run returns, or how it panics, from the PRI stage on. *)
Lemma ParseSyslog_pri (buf source tail : string) (pri : Z) (k : nat) :
  pri_stage buf = Some (pri, tail) ->
  result (ParseSyslog clock buf source k) =
  ('(msg, rest) <-
     parse_version (set_Severity (Z.land pri 7)
                      (set_Facility (Z.shiftr pri 3)
                         (initial (clock k) source))) tail ;;
   Returned (set_Message rest msg)).
Proof.
  intros H. rewrite ParseSyslog_run. unfold result, fst, parse_body.
  rewrite parse_pri_spec, H.
  destruct buf; [discriminate | reflexivity].
Qed.

Lemma ParseSyslog_no_pri (c : ascii) (s source : string) (k : nat) :
  pri_stage (String c s) = None ->
  result (ParseSyslog clock (String c s) source k) =
  Returned (set_Message (String c s) (initial (clock k) source)).
Proof.
  intros H. rewrite ParseSyslog_run. unfold result, fst, parse_body.
  now rewrite parse_pri_spec, H.
Qed.

End PriFacts.

(* ================================================================== *)
(** * Properties of ParseSyslog, C1 to C10 *)

Section Claims.

Context {TL : TimeLib}.
Variable clock : nat -> string.

(** C1. ParseSyslog does not return a record for every buffer: on the
    empty buffer and on a buffer that ends right after the PRI, the read
    of [rest[0]] (lines 52 and 60) panics with an index out of range; on a
    legacy remainder shorter than the 15-byte stamp, [rest[:15]] (line 95)
    panics with slice bounds out of range.  No failure of this kind is
    turned into a Message. *)
Theorem ParseSyslog_panics_on_short_buffers (source : string) (k : nat) :
  result (ParseSyslog clock "" source k) = Panicked IndexOutOfRange
  /\ result (ParseSyslog clock "<13>" source k) = Panicked IndexOutOfRange
  /\ result (ParseSyslog clock "<13>abc" source k)
     = Panicked SliceBoundsOutOfRange.
Proof. repeat split; reflexivity. Qed.

(** C8. A buffer whose first byte is not ["<"] comes back with
    Facility 0, Severity 5, the whole buffer as Message and the source
    address as Hostname; the empty buffer, which does not begin with
    ["<"] either, panics at line 52 instead. *)
Theorem ParseSyslog_without_bracket
    (c : ascii) (s source : string) (k : nat) :
  c <> "<"%char ->
  result (ParseSyslog clock (String c s) source k) =
  Returned {| Version := 0; Facility := 0; Severity := 5;
              Timestamp := clock k; Hostname := source; Tag := "";
              StructuredData := ""; Message := String c s;
              Source := source |}
  /\ result (ParseSyslog clock "" source k) = Panicked IndexOutOfRange.
Proof.
  intros N. split; [|reflexivity].
  now rewrite ParseSyslog_no_pri by now apply pri_stage_no_bracket.
Qed.

(** What is known of a returned record once the PRI stage succeeded. *)
Lemma ParseSyslog_pri_fields
    (buf source tail : string) (pri : Z) (k : nat) (msg : SyslogMessage) :
  pri_stage buf = Some (pri, tail) ->
  result (ParseSyslog clock buf source k) = Returned msg ->
  Facility msg = Z.shiftr pri 3 /\ Severity msg = Z.land pri 7
  /\ Source msg = source /\ is_suffix (Message msg) tail
  /\ exists c tl, tail = String c tl
     /\ Version msg = if Ascii.eqb c "1" then 1 else 0.
Proof.
  intros P H. rewrite (ParseSyslog_pri clock _ _ _ _ _ P) in H.
  inv_bind H. destruct a as [m r]. inv_returned H.
  apply parse_version_frame in Ha as (S1 & (F & S & So & _) & c & tl & E & V).
  repeat split; try assumption.
  exists c, tl. split; assumption.
Qed.

(** Severity is within [0, 7] in every returned record, Version is 0 or
    1. *)
Lemma ParseSyslog_ranges
    (buf source : string) (k : nat) (msg : SyslogMessage) :
  result (ParseSyslog clock buf source k) = Returned msg ->
  0 <= Severity msg <= 7 /\ (Version msg = 0 \/ Version msg = 1).
Proof.
  intros H. destruct buf as [|c b]; [discriminate|].
  destruct (pri_stage (String c b)) as [[pri tail]|] eqn:P.
  - destruct (ParseSyslog_pri_fields _ _ _ _ _ _ P H)
      as (_ & S & _ & _ & c' & tl & _ & V).
    split.
    + rewrite S. destruct (pri_arith pri) as (_ & -> & _).
      pose proof (Z.mod_pos_bound pri 8). lia.
    + rewrite V. destruct (Ascii.eqb c' "1"); auto.
  - rewrite ParseSyslog_no_pri in H by assumption.
    inv_returned H. cbn. lia.
Qed.

(** C6. For [0 <= p <= 191] the PRI stage reads [p] back from a packet
    that begins [<p>]; every record returned for such a packet has
    Facility [p / 8] and Severity [p mod 8], from which [p] is recovered;
    on every returned record, whatever the buffer, re-deriving the pair from
    [Facility * 8 + Severity] gives the pair back.  But the packet made of
    the PRI alone returns no record: it panics at line 60. *)
Theorem pri_packet_arithmetic (p : Z) (tail source : string) (k : nat) :
  0 <= p <= 191 ->
  pri_stage (pri_packet p tail) = Some (p, tail)
  /\ (forall msg,
        result (ParseSyslog clock (pri_packet p tail) source k) = Returned msg ->
        Facility msg = p / 8 /\ Severity msg = p mod 8
        /\ Facility msg * 8 + Severity msg = p)
  /\ (forall buf msg,
        result (ParseSyslog clock buf source k) = Returned msg ->
        Z.shiftr (Facility msg * 8 + Severity msg) 3 = Facility msg
        /\ Z.land (Facility msg * 8 + Severity msg) 7 = Severity msg)
  /\ result (ParseSyslog clock (pri_packet p "") source k)
     = Panicked IndexOutOfRange.
Proof.
  intros R. split; [now apply pri_stage_packet|]. split; [|split].
  - intros msg H.
    destruct (ParseSyslog_pri_fields _ _ _ _ _ _ (pri_stage_packet p tail R) H)
      as (F & S & _).
    destruct (pri_arith p) as (A1 & A2 & A3).
    rewrite F, S, A3. rewrite A1, A2. repeat split; reflexivity.
  - intros buf msg H.
    destruct (ParseSyslog_ranges _ _ _ _ H) as (S & _).
    destruct (pri_arith (Facility msg * 8 + Severity msg)) as (-> & -> & _).
    split.
    + symmetry. apply (Z.div_unique _ 8 _ (Severity msg)); lia.
    + symmetry. apply (Z.mod_unique _ 8 (Facility msg) _); lia.
  - rewrite (ParseSyslog_pri clock _ _ _ _ _ (pri_stage_packet p "" R)).
    reflexivity.
Qed.

(** C10. The Message of a returned record is a suffix of the input
    buffer. *)
Theorem Message_is_suffix
    (buf source : string) (k : nat) (msg : SyslogMessage) :
  result (ParseSyslog clock buf source k) = Returned msg ->
  is_suffix (Message msg) buf.
Proof.
  intros H. destruct buf as [|c b]; [discriminate|].
  destruct (pri_stage (String c b)) as [[pri tail]|] eqn:P.
  - destruct (ParseSyslog_pri_fields _ _ _ _ _ _ P H) as (_ & _ & _ & S & _).
    apply pri_stage_elim in P as (digits & E & _).
    eapply is_suffix_trans; [exact S|].
    rewrite E. exists (String "<" (digits ++ ">")).
    cbn [append]. now rewrite app_assoc_s.
  - rewrite ParseSyslog_no_pri in H by assumption.
    inv_returned H. apply is_suffix_refl.
Qed.

(** C2 (amended). In every returned record Severity is within [0, 7] and
    Version is 0 or 1; when the PRI stage succeeded with value [pri],
    Facility is [pri >> 3], which lies within [-13, 124], and is within
    [0, 23] exactly when [0 <= pri <= 191]. *)
Theorem pri_field_ranges
    (buf source : string) (k : nat) (msg : SyslogMessage) :
  result (ParseSyslog clock buf source k) = Returned msg ->
  0 <= Severity msg <= 7
  /\ (Version msg = 0 \/ Version msg = 1)
  /\ forall pri tail,
       pri_stage buf = Some (pri, tail) ->
       Facility msg = Z.shiftr pri 3 /\ Severity msg = Z.land pri 7
       /\ -13 <= Facility msg <= 124
       /\ (0 <= Facility msg <= 23 <-> 0 <= pri <= 191).
Proof.
  intros H. destruct (ParseSyslog_ranges _ _ _ _ H) as (S & V).
  split; [exact S|]. split; [exact V|].
  intros pri tail P.
  destruct (ParseSyslog_pri_fields _ _ _ _ _ _ P H) as (F & Sv & _).
  apply pri_stage_elim in P as (digits & _ & L & _ & A).
  apply Atoi_three_bytes in A; [|lia].
  rewrite F, Sv. destruct (pri_arith pri) as (-> & _ & _).
  pose proof (Z.div_mod pri 8). pose proof (Z.mod_pos_bound pri 8).
  repeat split; try reflexivity; lia.
Qed.

Lemma ParseSyslog_after_pri (buf source tail : string) (pri : Z) (k : nat) :
  pri_stage buf = Some (pri, tail) ->
  result (ParseSyslog clock buf source k) =
  finish (parse_version (after_pri clock pri k source) tail).
Proof. intros P. now rewrite (ParseSyslog_pri clock _ _ _ _ _ P). Qed.

Lemma parse_version_structured (msg : SyslogMessage) (c : ascii) (w : string) :
  parse_version msg (String "1" (String c w)) =
  parse_structured (set_Version 1 msg) w.
Proof.
  unfold parse_version. rewrite index_0_cons. cbn [bind].
  rewrite Ascii.eqb_refl.
  rewrite slice_from_ok
    by (rewrite !len_cons; pose proof (len_nonneg w); lia).
  reflexivity.
Qed.

Lemma parse_version_legacy (msg : SyslogMessage) (c : ascii) (tl : string) :
  c <> "1"%char ->
  parse_version msg (String c tl) = parse_legacy msg (String c tl).
Proof.
  intros N. unfold parse_version. rewrite index_0_cons. cbn [bind].
  apply Ascii.eqb_neq in N. now rewrite N.
Qed.

(** C3 (amended). After a successful PRI stage the structured grammar is
    run, with Version 1, exactly when the next byte is ["1"]; the byte
    after it is dropped whatever it is.  On any other next byte the
    legacy grammar is run and Version stays 0. *)
Theorem version_digit_selects_grammar
    (buf source tail : string) (pri : Z) (k : nat) :
  pri_stage buf = Some (pri, tail) ->
  (forall c w,
      tail = String "1" (String c w) ->
      result (ParseSyslog clock buf source k) =
      finish (parse_structured (set_Version 1 (after_pri clock pri k source)) w))
  /\ (forall c tl,
        tail = String c tl -> c <> "1"%char ->
        result (ParseSyslog clock buf source k) =
        finish (parse_legacy (after_pri clock pri k source) tail))
  /\ (forall msg,
        result (ParseSyslog clock buf source k) = Returned msg ->
        (Version msg = 1 <-> exists tl, tail = String "1" tl)
        /\ (Version msg = 0 <-> ~ exists tl, tail = String "1" tl)).
Proof.
  intros P. split; [|split].
  - intros c w ->. rewrite (ParseSyslog_after_pri _ _ _ _ _ P).
    now rewrite parse_version_structured.
  - intros c tl -> N. rewrite (ParseSyslog_after_pri _ _ _ _ _ P).
    now rewrite parse_version_legacy.
  - intros msg H.
    destruct (ParseSyslog_pri_fields _ _ _ _ _ _ P H)
      as (_ & _ & _ & _ & c & tl & -> & V).
    destruct (Ascii.eqb c "1") eqn:E.
    + apply Ascii.eqb_eq in E; subst c. rewrite V. split; split.
      * intros _. now exists tl.
      * reflexivity.
      * discriminate.
      * intros N. exfalso. apply N. now exists tl.
    + apply Ascii.eqb_neq in E. rewrite V. split; split.
      * discriminate.
      * intros [tl' T]. inversion T. contradiction.
      * intros _ [tl' T]. inversion T. contradiction.
      * reflexivity.
Qed.

(** The timestamp token of the structured grammar: everything up to the
    first space. *)
Lemma parse_structured_token
    (msg : SyslogMessage) (tok more : string) :
  index_byte_from 0 tok " " = None ->
  parse_structured msg (tok ++ String " " more) =
  match parse_rfc3339 tok with
  | Some ts =>
      let msg := set_Timestamp (Time_String ts) msg in
      let parts := strings_SplitN more " " 5 in
      if Nat.eqb (List.length parts) 5 then
        parse_sd (set_Tag (strings_Join (sublist parts 1 4) " ")
                    (set_Hostname (part parts 0) msg))
                 (part parts 4)
      else parse_sd msg more
  | None => Returned (msg, tok ++ String " " more)
  end.
Proof.
  intros N. unfold parse_structured.
  assert (E : strings_IndexRune (tok ++ String " " more) " " = len tok).
  { unfold strings_IndexRune. now rewrite (index_byte_app tok more " " N). }
  rewrite E. pose proof (len_nonneg tok) as L0.
  assert (L : len (tok ++ String " " more) = len tok + 1 + len more).
  { unfold len. rewrite length_app. cbn [String.length]. lia. }
  pose proof (len_nonneg more).
  destruct (0 <=? len tok) eqn:C; [|lia].
  rewrite slice_to_ok by lia. cbn [bind].
  replace (Z.to_nat (len tok)) with (String.length tok) by (unfold len; lia).
  rewrite take_app.
  destruct (parse_rfc3339 tok) as [ts|]; [|reflexivity].
  rewrite slice_from_ok by lia. cbn [bind].
  replace (Z.to_nat (len tok + 1)) with (String.length tok + 1)%nat
    by (unfold len; lia).
  rewrite <- drop_drop, drop_app. reflexivity.
Qed.

(** C4 (amended). In the structured grammar, when the timestamp token is
    ["-"] or is rejected by both layouts, the grammar is abandoned there:
    Timestamp keeps the clock reading, Hostname keeps the source address
    it was initialised with, Tag stays empty and Message is the remainder,
    timestamp token included. *)
Theorem structured_timestamp_rejected
    (buf source tok more : string) (c : ascii) (pri : Z) (k : nat) :
  pri_stage buf = Some (pri, String "1" (String c (tok ++ String " " more))) ->
  index_byte_from 0 tok " " = None ->
  tok = "-" \/ parse_rfc3339 tok = None ->
  result (ParseSyslog clock buf source k) =
  Returned {| Version := 1; Facility := Z.shiftr pri 3;
              Severity := Z.land pri 7; Timestamp := clock k;
              Hostname := source; Tag := ""; StructuredData := "";
              Message := tok ++ String " " more; Source := source |}.
Proof.
  intros P N T.
  assert (R : parse_rfc3339 tok = None).
  { destruct T as [->|T]; [|exact T].
    unfold parse_rfc3339. now rewrite !time_Parse_nil. }
  rewrite (ParseSyslog_after_pri _ _ _ _ _ P), parse_version_structured.
  rewrite parse_structured_token by assumption. rewrite R. reflexivity.
Qed.

(** C5 (amended). In the structured grammar, after a timestamp has been
    parsed, a remainder that does not split into 5 parts leaves Hostname
    and Tag at their defaults (the source address and the empty string),
    and the structured-data block is still run on the unsplit remainder.
    When that remainder is not empty and does not start with ["["], or
    starts with ["["] but has no ["]"] past index 1, the whole remainder is
    the Message and StructuredData stays empty.  When it starts with ["["]
    and its first ["]"] is past index 1 and followed by at least one more
    byte, what precedes the ["]"] is captured as StructuredData and the
    Message starts two bytes after the ["]"]. *)
Theorem structured_short_split
    (buf source tok rem : string) (c : ascii) (pri : Z) (k : nat)
    (ts : time_Time) :
  pri_stage buf = Some (pri, String "1" (String c (tok ++ String " " rem))) ->
  index_byte_from 0 tok " " = None ->
  parse_rfc3339 tok = Some ts ->
  List.length (strings_SplitN rem " " 5) <> 5%nat ->
  let unsplit :=
    {| Version := 1; Facility := Z.shiftr pri 3; Severity := Z.land pri 7;
       Timestamp := Time_String ts; Hostname := source; Tag := "";
       StructuredData := ""; Message := rem; Source := source |} in
  result (ParseSyslog clock buf source k) = finish (parse_sd unsplit rem)
  /\ (forall x r, rem = String x r -> x <> "["%char ->
        result (ParseSyslog clock buf source k) = Returned unsplit)
  /\ (forall r, rem = String "[" r -> strings_IndexRune rem "]" <= 1 ->
        result (ParseSyslog clock buf source k) = Returned unsplit)
  /\ (forall r sdEnd,
        rem = String "[" r -> strings_IndexRune rem "]" = sdEnd ->
        1 < sdEnd -> sdEnd + 2 <= len rem ->
        result (ParseSyslog clock buf source k) =
        Returned {| Version := 1; Facility := Z.shiftr pri 3;
                    Severity := Z.land pri 7; Timestamp := Time_String ts;
                    Hostname := source; Tag := "";
                    StructuredData := take (Z.to_nat sdEnd) rem;
                    Message := drop (Z.to_nat (sdEnd + 2)) rem;
                    Source := source |}).
Proof.
  intros P N T L unsplit.
  assert (E : forall m, result (ParseSyslog clock buf source k)
                        = finish (parse_sd (set_Message m unsplit) rem)).
  { intros m.
    rewrite (ParseSyslog_after_pri _ _ _ _ _ P), parse_version_structured.
    rewrite parse_structured_token by assumption. rewrite T. cbv zeta.
    apply Nat.eqb_neq in L. rewrite L.
    unfold parse_sd, finish.
    destruct (index rem 0) as [x|e]; [|reflexivity]. cbn [bind].
    destruct (Ascii.eqb x "["); [|reflexivity].
    destruct (1 <? strings_IndexRune rem "]"); [|reflexivity].
    destruct (slice_to rem (strings_IndexRune rem "]")); [|reflexivity].
    cbn [bind].
    destruct (slice_from rem (strings_IndexRune rem "]" + 2)); reflexivity. }
  split; [exact (E rem)|]. split; [|split].
  - intros x r -> X. rewrite (E ""), parse_sd_plain by assumption. reflexivity.
  - intros r -> X. rewrite (E ""), parse_sd_unclosed by assumption. reflexivity.
  - intros r sdEnd -> X G B.
    rewrite (E ""), (parse_sd_captured _ _ sdEnd) by assumption. reflexivity.
Qed.

(** C7. The legacy grammar, entered on a next byte other than ["1"]:
    - a remainder shorter than 15 bytes panics at [rest[:15]] (line 95)
      instead of becoming the Message;
    - when [time.Parse(time.Stamp, rest[:15])] fails, the remainder is the
      Message;
    - when it succeeds on a remainder of exactly 15 bytes, [rest[16:]]
      (line 97) panics;
    - when it succeeds and byte 15 exists, 16 bytes are skipped and what
      follows is split on spaces in 3: Hostname, Tag and Message when there
      are 3 parts, and otherwise what follows is the Message;
    - every record returned has Version 0. *)
Theorem legacy_grammar
    (buf source tl : string) (c : ascii) (pri : Z) (k : nat) :
  pri_stage buf = Some (pri, String c tl) ->
  c <> "1"%char ->
  let rest := String c tl in
  let run := result (ParseSyslog clock buf source k) in
  (len rest < 15 -> run = Panicked SliceBoundsOutOfRange)
  /\ (15 <= len rest -> time_Parse Stamp (take 15 rest) = None ->
      run = Returned {| Version := 0; Facility := Z.shiftr pri 3;
                        Severity := Z.land pri 7; Timestamp := clock k;
                        Hostname := source; Tag := ""; StructuredData := "";
                        Message := rest; Source := source |})
  /\ (forall ts,
        time_Parse Stamp (take 15 rest) = Some ts ->
        (len rest = 15 -> run = Panicked SliceBoundsOutOfRange)
        /\ (forall host tag message,
              16 <= len rest ->
              strings_SplitN (drop 16 rest) " " 3 = [host; tag; message] ->
              run = Returned {| Version := 0; Facility := Z.shiftr pri 3;
                                Severity := Z.land pri 7;
                                Timestamp := Time_String ts;
                                Hostname := host; Tag := tag;
                                StructuredData := "";
                                Message := message; Source := source |})
        /\ (16 <= len rest ->
            List.length (strings_SplitN (drop 16 rest) " " 3) <> 3%nat ->
            run = Returned {| Version := 0; Facility := Z.shiftr pri 3;
                              Severity := Z.land pri 7;
                              Timestamp := Time_String ts;
                              Hostname := source; Tag := "";
                              StructuredData := "";
                              Message := drop 16 rest; Source := source |}))
  /\ (forall msg, run = Returned msg -> Version msg = 0).
Proof.
  intros P N rest run.
  assert (E : run = finish (parse_legacy (after_pri clock pri k source) rest)).
  { subst run rest. rewrite (ParseSyslog_after_pri _ _ _ _ _ P).
    now rewrite parse_version_legacy. }
  pose proof (len_nonneg rest) as L0.
  split; [|split; [|split]].
  - intros L. rewrite E. unfold parse_legacy.
    now rewrite slice_to_panics by lia.
  - intros L T. rewrite E. unfold parse_legacy.
    rewrite slice_to_ok by lia. cbn [bind].
    change (Z.to_nat 15) with 15%nat. now rewrite T.
  - intros ts T. split; [|split].
    + intros L. rewrite E. unfold parse_legacy.
      rewrite slice_to_ok by lia. cbn [bind].
      change (Z.to_nat 15) with 15%nat. rewrite T.
      now rewrite slice_from_panics by lia.
    + intros host tag message L Sp. rewrite E. unfold parse_legacy.
      rewrite slice_to_ok by lia. cbn [bind].
      change (Z.to_nat 15) with 15%nat. rewrite T.
      rewrite slice_from_ok by lia. cbn [bind].
      change (Z.to_nat 16) with 16%nat. rewrite Sp. reflexivity.
    + intros L Sp. rewrite E. unfold parse_legacy.
      rewrite slice_to_ok by lia. cbn [bind].
      change (Z.to_nat 15) with 15%nat. rewrite T.
      rewrite slice_from_ok by lia. cbn [bind].
      change (Z.to_nat 16) with 16%nat.
      apply Nat.eqb_neq in Sp. rewrite Sp. reflexivity.
  - intros msg H. subst run.
    destruct (ParseSyslog_pri_fields _ _ _ _ _ _ P H)
      as (_ & _ & _ & _ & c' & tl' & T & V).
    inversion T; subst c' tl'.
    apply Ascii.eqb_neq in N. now rewrite N in V.
Qed.

End Claims.

Section ClockInfluence.

Context {TL : TimeLib}.

Lemma set_Timestamp_twice (a b : string) (m : SyslogMessage) :
  set_Timestamp a (set_Timestamp b m) = set_Timestamp a m.
Proof. reflexivity. Qed.

Lemma same_up_to_default_refl (t1 t2 : string) (o : Outcome Locals) :
  same_up_to_default t1 t2 o o.
Proof. destruct o as [[m r]|e]; cbn; auto. Qed.

(** The structured-data block does not look at the Timestamp. *)
Lemma parse_sd_retime (t : string) (m : SyslogMessage) (rest : string) :
  parse_sd (set_Timestamp t m) rest =
  match parse_sd m rest with
  | Returned (m', r') => Returned (set_Timestamp t m', r')
  | Panicked e => Panicked e
  end.
Proof.
  unfold parse_sd. destruct (index rest 0) as [c|e]; [|reflexivity].
  cbn [bind]. destruct (Ascii.eqb c "["); [|reflexivity].
  destruct (1 <? strings_IndexRune rest "]"); [|reflexivity].
  destruct (slice_to rest (strings_IndexRune rest "]")); [|reflexivity].
  cbn [bind].
  destruct (slice_from rest (strings_IndexRune rest "]" + 2)); reflexivity.
Qed.

Lemma parse_structured_default
    (t1 t2 : string) (m : SyslogMessage) (rest : string) :
  same_up_to_default t1 t2
    (parse_structured (set_Timestamp t1 m) rest)
    (parse_structured (set_Timestamp t2 m) rest).
Proof.
  unfold parse_structured.
  destruct (0 <=? strings_IndexRune rest " ");
    [|cbn; split; [reflexivity | right; now exists m]].
  destruct (slice_to rest (strings_IndexRune rest " ")) as [tok|e];
    [|reflexivity].
  cbn [bind].
  destruct (parse_rfc3339 tok) as [ts|];
    [|cbn; split; [reflexivity | right; now exists m]].
  cbv zeta. rewrite !set_Timestamp_twice. apply same_up_to_default_refl.
Qed.

Lemma parse_legacy_default
    (t1 t2 : string) (m : SyslogMessage) (rest : string) :
  same_up_to_default t1 t2
    (parse_legacy (set_Timestamp t1 m) rest)
    (parse_legacy (set_Timestamp t2 m) rest).
Proof.
  unfold parse_legacy.
  destruct (slice_to rest 15) as [stamp|e]; [|reflexivity].
  cbn [bind].
  destruct (time_Parse Stamp stamp) as [ts|];
    [|cbn; split; [reflexivity | right; now exists m]].
  cbv zeta. rewrite !set_Timestamp_twice. apply same_up_to_default_refl.
Qed.

Lemma parse_version_default
    (t1 t2 : string) (m : SyslogMessage) (rest : string) :
  same_up_to_default t1 t2
    (parse_version (set_Timestamp t1 m) rest)
    (parse_version (set_Timestamp t2 m) rest).
Proof.
  unfold parse_version.
  destruct (index rest 0) as [c|e]; [|reflexivity].
  cbn [bind]. destruct (Ascii.eqb c "1").
  - cbv zeta. destruct (slice_from rest 2) as [rest'|e]; [|reflexivity].
    cbn [bind].
    change (set_Version 1 (set_Timestamp t1 m))
      with (set_Timestamp t1 (set_Version 1 m)).
    change (set_Version 1 (set_Timestamp t2 m))
      with (set_Timestamp t2 (set_Version 1 m)).
    apply parse_structured_default.
  - apply parse_legacy_default.
Qed.

Lemma parse_pri_default
    (t1 t2 : string) (m : SyslogMessage) (buf : string) :
  same_up_to_default t1 t2
    (parse_pri (set_Timestamp t1 m) buf)
    (parse_pri (set_Timestamp t2 m) buf).
Proof.
  rewrite !parse_pri_spec. destruct buf as [|c b]; [reflexivity|].
  destruct (pri_stage (String c b)) as [[pri tail]|].
  - change (set_Severity (Z.land pri 7)
              (set_Facility (Z.shiftr pri 3) (set_Timestamp t1 m)))
      with (set_Timestamp t1
              (set_Severity (Z.land pri 7) (set_Facility (Z.shiftr pri 3) m))).
    change (set_Severity (Z.land pri 7)
              (set_Facility (Z.shiftr pri 3) (set_Timestamp t2 m)))
      with (set_Timestamp t2
              (set_Severity (Z.land pri 7) (set_Facility (Z.shiftr pri 3) m))).
    apply parse_version_default.
  - cbn. split; [reflexivity | right; now exists m].
Qed.

(** C9 (amended). Under one time library, that is in a process with one
    time-zone setting, every run reads the clock exactly once, when the
    record is built at line 44, whether a timestamp is parsed out of the
    buffer afterwards or not.  Two runs on the same buffer and source,
    whatever their clocks show, panic alike or return records that are
    equal, or that hold each its own clock reading as Timestamp and are
    equal in every other field: the clock value reaches a record as its
    default Timestamp and in no other way.  Hence two runs whose clock
    readings agree have the same outcome. *)
Theorem clock_reaches_only_the_default_timestamp
    (clock1 clock2 : nat -> string) (k1 k2 : nat) (buf source : string) :
  readings (ParseSyslog clock1 buf source k1) = S k1
  /\ readings (ParseSyslog clock2 buf source k2) = S k2
  /\ match result (ParseSyslog clock1 buf source k1),
           result (ParseSyslog clock2 buf source k2) with
     | Returned m1, Returned m2 =>
         m1 = m2
         \/ (Timestamp m1 = clock1 k1 /\ Timestamp m2 = clock2 k2
             /\ set_Timestamp "" m1 = set_Timestamp "" m2)
     | Panicked e1, Panicked e2 => e1 = e2
     | _, _ => False
     end
  /\ (clock1 k1 = clock2 k2 ->
      result (ParseSyslog clock1 buf source k1)
      = result (ParseSyslog clock2 buf source k2)).
Proof.
  rewrite !ParseSyslog_run. unfold result, readings, fst, snd.
  split; [reflexivity|]. split; [reflexivity|]. split.
  - unfold parse_body.
    pose proof (parse_pri_default (clock1 k1) (clock2 k2)
                  (initial "" source) buf) as D.
    change (set_Timestamp (clock1 k1) (initial "" source))
      with (initial (clock1 k1) source) in D.
    change (set_Timestamp (clock2 k2) (initial "" source))
      with (initial (clock2 k2) source) in D.
    destruct (parse_pri (initial (clock1 k1) source) buf) as [[m1 r1]|e1],
             (parse_pri (initial (clock2 k2) source) buf) as [[m2 r2]|e2];
      cbn in D |- *; try contradiction; try exact D.
    destruct D as (-> & [-> | (m & -> & ->)]).
    + left. reflexivity.
    + right. repeat split.
  - intros E. now rewrite E.
Qed.

End ClockInfluence.

(* ================================================================== *)
(** * Concrete packets

    The packets of TestParseSyslog and a few boundary cases, run with the
    reference time instance and the frozen clock. *)

Module Runs.

Import RefTime Packets.

Example run_structured_sd :
  run structured_sd source =
  Returned {| Version := 1; Facility := 1; Severity := 5;
              Timestamp := "2015-12-15 11:54:41.946675 -0800 -0800";
              Hostname := "host.domain.com"; Tag := "user - -";
              StructuredData :=
                "[timeQuality tzKnown=" ++ dq ++ "1" ++ dq ++ " isSynced="
                ++ dq ++ "1" ++ dq ++ " syncAccuracy=" ++ dq ++ "380797" ++ dq;
              Message := "message"; Source := source |}.
Proof. vm_compute. reflexivity. Qed.

Example run_legacy :
  run legacy source =
  Returned {| Version := 0; Facility := 1; Severity := 5;
              Timestamp := "0000-12-15 11:55:02 +0000 UTC";
              Hostname := "host"; Tag := "user:"; StructuredData := "";
              Message := "message"; Source := source |}.
Proof. vm_compute. reflexivity. Qed.

Example run_nil_timestamp :
  run nil_timestamp source =
  Returned {| Version := 1; Facility := 1; Severity := 5;
              Timestamp := now; Hostname := source; Tag := "";
              StructuredData := "";
              Message := "- host.domain.com user - - - message";
              Source := source |}.
Proof. vm_compute. reflexivity. Qed.

Example run_structured_nil_sd :
  run structured_nil_sd source =
  Returned {| Version := 1; Facility := 1; Severity := 5;
              Timestamp := "2015-12-15 11:56:01.776597 -0800 -0800";
              Hostname := "host.domain.com"; Tag := "user - -";
              StructuredData := ""; Message := "- message";
              Source := source |}.
Proof. vm_compute. reflexivity. Qed.

Example run_short_split :
  run short_split source =
  Returned {| Version := 1; Facility := 1; Severity := 5;
              Timestamp := "2015-12-15 11:54:41 +0000 UTC";
              Hostname := source; Tag := ""; StructuredData := "[ab";
              Message := "msg"; Source := source |}.
Proof. vm_compute. reflexivity. Qed.

(** A structured-data element that ends the packet: the skip of two bytes
    past the ["]"] (line 88) runs off the end. *)
Example run_sd_at_end :
  run "<13>1 2015-12-15T11:54:41Z host app - - [ab]" source =
  Panicked SliceBoundsOutOfRange.
Proof. vm_compute. reflexivity. Qed.

(** *** Packets on which the specification and the code part ways *)

(** C2: a three-digit PRI above 191 is accepted and gives a Facility
    outside of [0, 23]. *)
Lemma facility_out_of_range :
  pri_stage "<999>1 m" = Some (999, "1 m")
  /\ exists msg,
       run "<999>1 m" source = Returned msg
       /\ Facility msg = 124 /\ ~ (0 <= Facility msg <= 23).
Proof.
  split; [reflexivity|]. eexists. split; [vm_compute; reflexivity|].
  split; [reflexivity|]. cbn. lia.
Qed.

(** C3: ["1"] followed by a byte that is not a space selects the
    structured grammar all the same. *)
Lemma version_one_without_space :
  pri_stage "<13>1xm" = Some (13, "1xm")
  /\ exists msg,
       run "<13>1xm" source = Returned msg
       /\ Version msg = 1 /\ Version msg <> 0.
Proof.
  split; [reflexivity|]. eexists. split; [vm_compute; reflexivity|].
  split; [reflexivity|]. cbn. lia.
Qed.

(** C4: with the nil timestamp, Hostname is the source address, not the
    empty string. *)
Lemma hostname_keeps_source :
  exists msg,
    run nil_timestamp source = Returned msg
    /\ Message msg = "- host.domain.com user - - - message"
    /\ Hostname msg = "127.0.0.1" /\ Hostname msg <> "".
Proof.
  eexists. split; [vm_compute; reflexivity|].
  repeat split. cbn. discriminate.
Qed.

(** C5: the remainder ["[ab] msg"] splits into 2 parts, not 5, and its
    structured data is extracted nevertheless; the Message is not the
    unsplit remainder. *)
Lemma structured_data_after_short_split :
  List.length (strings_SplitN "[ab] msg" " " 5) = 2%nat
  /\ exists msg,
       run short_split source = Returned msg
       /\ StructuredData msg = "[ab" /\ Message msg = "msg"
       /\ Message msg <> "[ab] msg".
Proof.
  split; [reflexivity|]. eexists. split; [vm_compute; reflexivity|].
  repeat split. cbn. discriminate.
Qed.

(** C9: the clock is read on a run that parses its timestamp out of the
    buffer and makes no use of the reading. *)
Lemma clock_read_although_timestamp_parsed :
  readings (@ParseSyslog lib frozen_clock legacy source 0%nat) = 1%nat
  /\ exists msg,
       result (@ParseSyslog lib frozen_clock legacy source 0%nat) = Returned msg
       /\ Timestamp msg = "0000-12-15 11:55:02 +0000 UTC"
       /\ Timestamp msg <> frozen_clock 0.
Proof.
  split; [reflexivity|]. eexists. split; [vm_compute; reflexivity|].
  split; [reflexivity|]. cbn. discriminate.
Qed.

(** *** The theorems at work on concrete packets *)

Lemma ParseSyslog_without_bracket_witness :
  "h"%char <> "<"%char
  /\ result (@ParseSyslog lib frozen_clock "hello" source 0%nat) =
     Returned {| Version := 0; Facility := 0; Severity := 5;
                 Timestamp := now; Hostname := source; Tag := "";
                 StructuredData := ""; Message := "hello";
                 Source := source |}
  /\ result (@ParseSyslog lib frozen_clock "" source 0%nat)
     = Panicked IndexOutOfRange.
Proof.
  assert (N : "h"%char <> "<"%char) by discriminate.
  split; [exact N|].
  exact (@ParseSyslog_without_bracket lib frozen_clock "h" "ello" source 0%nat N).
Defined.

Lemma pri_packet_arithmetic_witness :
  0 <= 13 <= 191
  /\ pri_stage (pri_packet 13 "1 m") = Some (13, "1 m")
  /\ (exists msg,
        result (@ParseSyslog lib frozen_clock "<13>1 m" source 0%nat)
        = Returned msg
        /\ Facility msg = 13 / 8 /\ Severity msg = 13 mod 8
        /\ Z.shiftr (Facility msg * 8 + Severity msg) 3 = Facility msg)
  /\ result (@ParseSyslog lib frozen_clock "<13>" source 0%nat)
     = Panicked IndexOutOfRange.
Proof.
  assert (R : 0 <= 13 <= 191) by lia.
  destruct (@pri_packet_arithmetic lib frozen_clock 13 "1 m" source 0%nat R)
    as (P & F & I & B).
  split; [exact R|]. split; [exact P|]. split; [|exact B].
  eexists. split; [vm_compute; reflexivity|].
  destruct (F _ eq_refl) as (F1 & F2 & _).
  split; [exact F1|]. split; [exact F2|].
  exact (proj1 (I "<13>1 m" _ eq_refl)).
Defined.

Lemma Message_is_suffix_witness :
  result (@ParseSyslog lib frozen_clock legacy source 0%nat) =
  Returned {| Version := 0; Facility := 1; Severity := 5;
              Timestamp := "0000-12-15 11:55:02 +0000 UTC";
              Hostname := "host"; Tag := "user:"; StructuredData := "";
              Message := "message"; Source := source |}
  /\ is_suffix "message" legacy.
Proof.
  assert (H : result (@ParseSyslog lib frozen_clock legacy source 0%nat) =
              Returned {| Version := 0; Facility := 1; Severity := 5;
                          Timestamp := "0000-12-15 11:55:02 +0000 UTC";
                          Hostname := "host"; Tag := "user:";
                          StructuredData := ""; Message := "message";
                          Source := source |})
    by (vm_compute; reflexivity).
  split; [exact H|].
  exact (@Message_is_suffix lib frozen_clock legacy source 0%nat _ H).
Defined.

Lemma pri_field_ranges_witness :
  result (@ParseSyslog lib frozen_clock "<999>1 m" source 0%nat) =
  Returned {| Version := 1; Facility := 124; Severity := 7;
              Timestamp := now; Hostname := source; Tag := "";
              StructuredData := ""; Message := "m"; Source := source |}
  /\ 0 <= 7 <= 7 /\ (1 = 0 \/ 1 = 1)
  /\ 124 = Z.shiftr 999 3 /\ -13 <= 124 <= 124
  /\ (0 <= 124 <= 23 <-> 0 <= 999 <= 191).
Proof.
  assert (H : result (@ParseSyslog lib frozen_clock "<999>1 m" source 0%nat) =
              Returned {| Version := 1; Facility := 124; Severity := 7;
                          Timestamp := now; Hostname := source; Tag := "";
                          StructuredData := ""; Message := "m";
                          Source := source |})
    by (vm_compute; reflexivity).
  destruct (@pri_field_ranges lib frozen_clock "<999>1 m" source 0%nat _ H)
    as (S & V & K).
  destruct (K 999 "1 m" eq_refl) as (F & _ & B & I).
  split; [exact H|]. split; [exact S|]. split; [exact V|].
  split; [exact F|]. split; [exact B | exact I].
Defined.

Lemma version_digit_selects_grammar_witness :
  pri_stage "<13>1xm" = Some (13, "1xm")
  /\ result (@ParseSyslog lib frozen_clock "<13>1xm" source 0%nat) =
     finish (@parse_structured lib
               (set_Version 1 (after_pri frozen_clock 13 0 source)) "m")
  /\ (Version {| Version := 1; Facility := 1; Severity := 5;
                 Timestamp := now; Hostname := source; Tag := "";
                 StructuredData := ""; Message := "m"; Source := source |}
      = 1 <-> exists tl, "1xm" = String "1" tl).
Proof.
  assert (P : pri_stage "<13>1xm" = Some (13, "1xm")) by reflexivity.
  destruct (@version_digit_selects_grammar lib frozen_clock
              "<13>1xm" source "1xm" 13 0%nat P) as (A & _ & C).
  split; [exact P|]. split; [exact (A "x"%char "m" eq_refl)|].
  exact (proj1 (C _ eq_refl)).
Defined.

Lemma structured_timestamp_rejected_witness :
  pri_stage nil_timestamp
  = Some (13, String "1" (String " "
                ("-" ++ String " " "host.domain.com user - - - message")))
  /\ index_byte_from 0 "-" " " = None
  /\ ("-" = "-" \/ @parse_rfc3339 lib "-" = None)
  /\ result (@ParseSyslog lib frozen_clock nil_timestamp source 0%nat) =
     Returned {| Version := 1; Facility := Z.shiftr 13 3;
                 Severity := Z.land 13 7; Timestamp := now;
                 Hostname := source; Tag := ""; StructuredData := "";
                 Message := "- host.domain.com user - - - message";
                 Source := source |}.
Proof.
  assert (P : pri_stage nil_timestamp
              = Some (13, String "1" (String " "
                       ("-" ++ String " " "host.domain.com user - - - message"))))
    by reflexivity.
  assert (N : index_byte_from 0 "-" " " = None) by reflexivity.
  assert (T : "-" = "-" \/ @parse_rfc3339 lib "-" = None) by (left; reflexivity).
  split; [exact P|]. split; [exact N|]. split; [exact T|].
  exact (@structured_timestamp_rejected lib frozen_clock nil_timestamp source
           "-" "host.domain.com user - - - message" " "%char 13 0%nat P N T).
Defined.

Lemma structured_short_split_witness :
  pri_stage short_split
  = Some (13, String "1" (String " "
                ("2015-12-15T11:54:41Z" ++ String " " "[ab] msg")))
  /\ index_byte_from 0 "2015-12-15T11:54:41Z" " " = None
  /\ @parse_rfc3339 lib "2015-12-15T11:54:41Z"
     = Some (RefTime.mk "2015-12-15" "11:54:41" "" "+0000 UTC")
  /\ List.length (strings_SplitN "[ab] msg" " " 5) <> 5%nat
  /\ result (@ParseSyslog lib frozen_clock short_split source 0%nat) =
     Returned {| Version := 1; Facility := Z.shiftr 13 3;
                 Severity := Z.land 13 7;
                 Timestamp := "2015-12-15 11:54:41 +0000 UTC";
                 Hostname := source; Tag := ""; StructuredData := "[ab";
                 Message := "msg"; Source := source |}.
Proof.
  assert (P : pri_stage short_split
              = Some (13, String "1" (String " "
                       ("2015-12-15T11:54:41Z" ++ String " " "[ab] msg"))))
    by reflexivity.
  assert (N : index_byte_from 0 "2015-12-15T11:54:41Z" " " = None)
    by reflexivity.
  assert (T : @parse_rfc3339 lib "2015-12-15T11:54:41Z"
              = Some (RefTime.mk "2015-12-15" "11:54:41" "" "+0000 UTC"))
    by reflexivity.
  assert (L : List.length (strings_SplitN "[ab] msg" " " 5) <> 5%nat)
    by (vm_compute; discriminate).
  destruct (@structured_short_split lib frozen_clock short_split source
              "2015-12-15T11:54:41Z" "[ab] msg" " "%char 13 0%nat _ P N T L)
    as (_ & _ & _ & C).
  split; [exact P|]. split; [exact N|]. split; [exact T|]. split; [exact L|].
  assert (B1 : 1 < 3) by lia.
  assert (B2 : 3 + 2 <= len "[ab] msg") by (vm_compute; discriminate).
  exact (C "ab] msg" 3 eq_refl eq_refl B1 B2).
Defined.

Lemma legacy_grammar_witness :
  pri_stage legacy = Some (13, String "D" "ec 15 11:55:02 host user: message")
  /\ "D"%char <> "1"%char
  /\ result (@ParseSyslog lib frozen_clock legacy source 0%nat) =
     Returned {| Version := 0; Facility := Z.shiftr 13 3;
                 Severity := Z.land 13 7;
                 Timestamp := "0000-12-15 11:55:02 +0000 UTC";
                 Hostname := "host"; Tag := "user:"; StructuredData := "";
                 Message := "message"; Source := source |}.
Proof.
  assert (P : pri_stage legacy
              = Some (13, String "D" "ec 15 11:55:02 host user: message"))
    by reflexivity.
  assert (N : "D"%char <> "1"%char) by discriminate.
  destruct (@legacy_grammar lib frozen_clock legacy source
              "ec 15 11:55:02 host user: message" "D"%char 13 0%nat P N)
    as (_ & _ & K & _).
  destruct (K (RefTime.mk "0000-12-15" "11:55:02" "" "+0000 UTC") eq_refl)
    as (_ & S & _).
  split; [exact P|]. split; [exact N|].
  assert (B : 16 <= len (String "D" "ec 15 11:55:02 host user: message"))
    by (vm_compute; discriminate).
  exact (S "host" "user:" "message" B eq_refl).
Defined.

Lemma clock_reaches_only_the_default_timestamp_witness :
  readings (@ParseSyslog lib frozen_clock nil_timestamp source 0%nat) = 1%nat
  /\ readings (@ParseSyslog lib drifting_clock nil_timestamp source 0%nat) = 1%nat
  /\ (exists m1 m2,
        result (@ParseSyslog lib frozen_clock nil_timestamp source 0%nat)
        = Returned m1
        /\ result (@ParseSyslog lib drifting_clock nil_timestamp source 0%nat)
           = Returned m2
        /\ (m1 = m2
            \/ (Timestamp m1 = frozen_clock 0 /\ Timestamp m2 = drifting_clock 0
                /\ set_Timestamp "" m1 = set_Timestamp "" m2)))
  /\ (frozen_clock 0 = drifting_clock 3 ->
      result (@ParseSyslog lib frozen_clock nil_timestamp source 0%nat)
      = result (@ParseSyslog lib drifting_clock nil_timestamp source 3%nat)).
Proof.
  destruct (@clock_reaches_only_the_default_timestamp lib frozen_clock
              drifting_clock 0%nat 0%nat nil_timestamp source)
    as (R1 & R2 & D & _).
  destruct (@clock_reaches_only_the_default_timestamp lib frozen_clock
              drifting_clock 0%nat 3%nat nil_timestamp source)
    as (_ & _ & _ & E).
  split; [exact R1|]. split; [exact R2|]. split; [|exact E].
  eexists. eexists. split; [vm_compute; reflexivity|].
  split; [vm_compute; reflexivity|]. exact D.
Defined.

(** The time zone of the process is an input of the parser too: the same
    packet, source and clock give two different Timestamps under UTC and
    under PST. *)
Example time_zone_reaches_the_record :
  (exists m,
     result (@ParseSyslog lib frozen_clock structured_nil_sd source 0%nat)
     = Returned m
     /\ Timestamp m = "2015-12-15 11:56:01.776597 -0800 -0800")
  /\ (exists m,
        result (@ParseSyslog RefTimePST8.lib frozen_clock structured_nil_sd
                  source 0%nat)
        = Returned m
        /\ Timestamp m = "2015-12-15 11:56:01.776597 -0800 PST").
Proof.
  split; eexists; (split; [vm_compute; reflexivity | reflexivity]).
Qed.

End Runs.

(* ================================================================== *)
(** * Further properties of ParseSyslog *)

(** ** Fields between separators *)

Lemma genSplit_field (k : nat) (f rest : string) (sep : ascii) :
  index_byte_from 0 f sep = None ->
  genSplit (S k) (f ++ String sep rest) sep = f :: genSplit k rest sep.
Proof.
  intros N. cbn [genSplit]. rewrite (index_byte_app f rest sep N).
  rewrite take_app.
  replace (S (String.length f)) with (String.length f + 1)%nat by lia.
  rewrite <- drop_drop, drop_app. reflexivity.
Qed.

Lemma SplitN_five (h a p m rest : string) :
  no_space h -> no_space a -> no_space p -> no_space m ->
  strings_SplitN
    (h ++ String " " (a ++ String " " (p ++ String " " (m ++ String " " rest))))
    " " 5
  = [h; a; p; m; rest].
Proof.
  intros Hh Ha Hp Hm. unfold strings_SplitN.
  rewrite !genSplit_field by assumption. reflexivity.
Qed.

Lemma SplitN_three (h t rest : string) :
  no_space h -> no_space t ->
  strings_SplitN (h ++ String " " (t ++ String " " rest)) " " 3 = [h; t; rest].
Proof.
  intros Hh Ht. unfold strings_SplitN.
  rewrite !genSplit_field by assumption. reflexivity.
Qed.

(** ** One structured-data element *)

Lemma IndexRune_element (sd more : string) :
  index_byte_from 0 sd "]" = None ->
  strings_IndexRune (String "[" (sd ++ String "]" more)) "]" = 1 + len sd.
Proof.
  intros N. unfold strings_IndexRune, len. rewrite index_byte_cons.
  change (Ascii.eqb "[" "]") with false. cbv iota.
  rewrite (index_byte_app sd more "]" N). cbn [option_map]. lia.
Qed.

Lemma len_app (a b : string) : len (a ++ b) = len a + len b.
Proof. unfold len. rewrite length_app. lia. Qed.

Section StructuredData.

Context {TL : TimeLib}.

(** A non-empty element followed by at least one byte: the element is
    kept without its closing bracket and the byte after the bracket is
    dropped. *)
Lemma parse_sd_element
    (msg : SyslogMessage) (sd message : string) (y : ascii) :
  sd <> "" -> index_byte_from 0 sd "]" = None ->
  parse_sd msg (String "[" (sd ++ String "]" (String y message))) =
  Returned (set_StructuredData (String "[" sd) msg, message).
Proof.
  intros NE N.
  assert (L : 1 <= len sd).
  { destruct sd; [contradiction|]. rewrite len_cons. pose proof (len_nonneg sd). lia. }
  pose proof (len_nonneg message) as Lm.
  rewrite (parse_sd_captured msg _ (1 + len sd)).
  - replace (Z.to_nat (1 + len sd)) with (S (String.length sd))
      by (unfold len; lia).
    replace (Z.to_nat (1 + len sd + 2)) with (S (String.length sd + 2))
      by (unfold len; lia).
    cbn [take drop]. rewrite take_app, <- drop_drop, drop_app. reflexivity.
  - now apply IndexRune_element.
  - lia.
  - rewrite len_cons, len_app, !len_cons. lia.
Qed.

(** A non-empty element that ends the string: the skip of two bytes
    leaves the string. *)
Lemma parse_sd_element_at_end (msg : SyslogMessage) (sd : string) :
  sd <> "" -> index_byte_from 0 sd "]" = None ->
  parse_sd msg (String "[" (sd ++ "]")) = Panicked SliceBoundsOutOfRange.
Proof.
  intros NE N.
  assert (L : 1 <= len sd).
  { destruct sd; [contradiction|]. rewrite len_cons. pose proof (len_nonneg sd). lia. }
  apply (parse_sd_overrun msg _ (1 + len sd)).
  - now apply IndexRune_element.
  - lia.
  - rewrite len_cons, len_app. change (len "]") with 1. lia.
Qed.

(** No closing bracket, or one right after the opening bracket: nothing
    is kept. *)
Lemma parse_sd_not_an_element (msg : SyslogMessage) (s : string) :
  index_byte_from 0 s "]" = None \/ (exists more, s = String "]" more) ->
  parse_sd msg (String "[" s) = Returned (msg, String "[" s).
Proof.
  intros H. apply parse_sd_unclosed.
  unfold strings_IndexRune. rewrite index_byte_cons.
  change (Ascii.eqb "[" "]") with false. cbv iota.
  destruct H as [N | [more ->]].
  - rewrite N. cbn. lia.
  - rewrite index_byte_cons, Ascii.eqb_refl. cbn. lia.
Qed.

End StructuredData.

Section MoreParser.

Context {TL : TimeLib}.
Variable clock : nat -> string.

(** The structured grammar up to the structured-data block, on a packet
    whose timestamp parses and whose four fields are there. *)
Lemma ParseSyslog_structured_fields
    (buf source tok host app procid msgid rest : string) (c : ascii)
    (pri : Z) (k : nat) (ts : time_Time) :
  pri_stage buf = Some (pri, structured_tail c tok host app procid msgid rest) ->
  no_space tok -> no_space host -> no_space app -> no_space procid ->
  no_space msgid ->
  parse_rfc3339 tok = Some ts ->
  result (ParseSyslog clock buf source k) =
  finish (parse_sd
            {| Version := 1; Facility := Z.shiftr pri 3;
               Severity := Z.land pri 7; Timestamp := Time_String ts;
               Hostname := host;
               Tag := app ++ String " " (procid ++ String " " msgid);
               StructuredData := ""; Message := ""; Source := source |}
            rest).
Proof.
  intros P Nt Nh Na Np Nm T. unfold structured_tail in P.
  rewrite (ParseSyslog_after_pri _ _ _ _ _ _ P), parse_version_structured.
  rewrite parse_structured_token by assumption. rewrite T. cbv zeta.
  rewrite SplitN_five by assumption. reflexivity.
Qed.

(** X1. A buffer that starts with ["<"] but has no [">"], or has its first
    [">"] right after the ["<"] or at index 5 or later, or has bytes in
    between that [Atoi] rejects, is returned whole as the Message, every
    other field keeping its default. *)
Theorem malformed_pri_keeps_buffer (b source : string) (k : nat) :
  index_byte_from 0 b ">" = None
  \/ (exists digits tail,
        b = digits ++ String ">" tail
        /\ index_byte_from 0 digits ">" = None
        /\ (digits = "" \/ (4 <= String.length digits)%nat
            \/ strconv_Atoi digits = None)) ->
  result (ParseSyslog clock (String "<" b) source k) =
  Returned {| Version := 0; Facility := 0; Severity := 5;
              Timestamp := clock k; Hostname := source; Tag := "";
              StructuredData := ""; Message := String "<" b;
              Source := source |}.
Proof.
  intros H. rewrite ParseSyslog_no_pri; [reflexivity|].
  unfold pri_stage. rewrite Ascii.eqb_refl.
  unfold strings_IndexRune. rewrite index_byte_cons.
  change (Ascii.eqb "<" ">") with false. cbv iota.
  destruct H as [N | (digits & tail & -> & N & C)].
  - rewrite N. reflexivity.
  - rewrite (index_byte_app digits tail ">" N). cbn [option_map].
    destruct ((1 <? Z.of_nat (S (String.length digits)))
              && (Z.of_nat (S (String.length digits)) <? 5)) eqn:R;
      [|reflexivity].
    replace (Z.to_nat (Z.of_nat (S (String.length digits)) - 1))
      with (String.length digits) by lia.
    change (drop 1 (String "<" (digits ++ String ">" tail)))
      with (digits ++ String ">" tail).
    rewrite take_app.
    apply andb_prop in R as [R1 R2].
    apply Z.ltb_lt in R1. apply Z.ltb_lt in R2.
    destruct C as [-> | [C | C]].
    + cbn in R1. lia.
    + lia.
    + now rewrite C.
Qed.


(** X3. When the rest of a structured packet is one non-empty
    bracketed element followed by at least one byte, StructuredData is the
    element from its ["["] up to, and without, its ["]"]; the byte after the
    ["]"] is dropped whatever it is, and Message is what follows it. *)
Theorem structured_data_captured
    (buf source tok host app procid msgid sd message : string) (c y : ascii)
    (pri : Z) (k : nat) (ts : time_Time) :
  pri_stage buf
  = Some (pri, structured_tail c tok host app procid msgid
                 (String "[" (sd ++ String "]" (String y message)))) ->
  no_space tok -> no_space host -> no_space app -> no_space procid ->
  no_space msgid ->
  parse_rfc3339 tok = Some ts ->
  sd <> "" -> index_byte_from 0 sd "]" = None ->
  result (ParseSyslog clock buf source k) =
  Returned {| Version := 1; Facility := Z.shiftr pri 3;
              Severity := Z.land pri 7; Timestamp := Time_String ts;
              Hostname := host;
              Tag := app ++ String " " (procid ++ String " " msgid);
              StructuredData := String "[" sd; Message := message;
              Source := source |}.
Proof.
  intros P Nt Nh Na Np Nm T NE N.
  rewrite (ParseSyslog_structured_fields _ _ _ _ _ _ _ _ _ _ _ _
             P Nt Nh Na Np Nm T).
  now rewrite parse_sd_element.
Qed.

(** X4. A structured packet that stops right after the space that follows
    the fourth field, or right after the ["]"] of its structured-data
    element, returns no record: the read of [rest[0]] at line 85 panics in
    the first case, the slice [rest[sdEnd+2:]] at line 88 in the second. *)
Theorem structured_packet_cut_short
    (buf source tok host app procid msgid sd : string) (c : ascii)
    (pri : Z) (k : nat) (ts : time_Time) :
  no_space tok -> no_space host -> no_space app -> no_space procid ->
  no_space msgid ->
  parse_rfc3339 tok = Some ts ->
  (pri_stage buf = Some (pri, structured_tail c tok host app procid msgid "") ->
   result (ParseSyslog clock buf source k) = Panicked IndexOutOfRange)
  /\ (pri_stage buf
      = Some (pri, structured_tail c tok host app procid msgid
                     (String "[" (sd ++ "]"))) ->
      sd <> "" -> index_byte_from 0 sd "]" = None ->
      result (ParseSyslog clock buf source k) = Panicked SliceBoundsOutOfRange).
Proof.
  intros Nt Nh Na Np Nm T. split.
  - intros P.
    rewrite (ParseSyslog_structured_fields _ _ _ _ _ _ _ _ _ _ _ _
               P Nt Nh Na Np Nm T).
    reflexivity.
  - intros P NE N.
    rewrite (ParseSyslog_structured_fields _ _ _ _ _ _ _ _ _ _ _ _
               P Nt Nh Na Np Nm T).
    now rewrite parse_sd_element_at_end.
Qed.

(** X5. A rest that starts with ["["] but has no ["]"], or has it right
    after the ["["], is not taken for structured data: StructuredData stays
    empty and the Message starts at the ["["]. *)
Theorem structured_data_not_captured
    (buf source tok host app procid msgid s : string) (c : ascii)
    (pri : Z) (k : nat) (ts : time_Time) :
  pri_stage buf
  = Some (pri, structured_tail c tok host app procid msgid (String "[" s)) ->
  no_space tok -> no_space host -> no_space app -> no_space procid ->
  no_space msgid ->
  parse_rfc3339 tok = Some ts ->
  index_byte_from 0 s "]" = None \/ (exists more, s = String "]" more) ->
  result (ParseSyslog clock buf source k) =
  Returned {| Version := 1; Facility := Z.shiftr pri 3;
              Severity := Z.land pri 7; Timestamp := Time_String ts;
              Hostname := host;
              Tag := app ++ String " " (procid ++ String " " msgid);
              StructuredData := ""; Message := String "[" s;
              Source := source |}.
Proof.
  intros P Nt Nh Na Np Nm T S.
  rewrite (ParseSyslog_structured_fields _ _ _ _ _ _ _ _ _ _ _ _
             P Nt Nh Na Np Nm T).
  now rewrite parse_sd_not_an_element.
Qed.

(** X6. When nothing after the version digit and the byte that follows it
    holds a space, there is no timestamp token to try: the record keeps the
    clock reading, the source address as Hostname and an empty Tag, and
    the Message is what follows those two bytes, possibly nothing; and a
    packet that ends with the version digit panics at [rest[2:]], line 62. *)
Theorem structured_without_token
    (buf source w : string) (c : ascii) (pri : Z) (k : nat) :
  no_space w ->
  (pri_stage buf = Some (pri, String "1" (String c w)) ->
   result (ParseSyslog clock buf source k) =
   Returned {| Version := 1; Facility := Z.shiftr pri 3;
               Severity := Z.land pri 7; Timestamp := clock k;
               Hostname := source; Tag := ""; StructuredData := "";
               Message := w; Source := source |})
  /\ (pri_stage buf = Some (pri, "1") ->
      result (ParseSyslog clock buf source k) = Panicked SliceBoundsOutOfRange).
Proof.
  intros N. split; intros P.
  - rewrite (ParseSyslog_after_pri _ _ _ _ _ _ P), parse_version_structured.
    unfold parse_structured, strings_IndexRune. unfold no_space in N.
    rewrite N. reflexivity.
  - rewrite (ParseSyslog_after_pri _ _ _ _ _ _ P). reflexivity.
Qed.

(** X7. A legacy packet whose first 15 bytes parse as a stamp: the byte
    after the stamp is dropped whatever it is, the next two space-free
    fields, empty ones included, are Hostname and Tag, and Message is the
    rest with its spaces. *)
Theorem legacy_fields
    (buf source stamp host tag rest : string) (c : ascii)
    (pri : Z) (k : nat) (ts : time_Time) :
  pri_stage buf = Some (pri, legacy_tail stamp c host tag rest) ->
  String.length stamp = 15%nat ->
  (forall tl, stamp <> String "1" tl) ->
  time_Parse Stamp stamp = Some ts ->
  no_space host -> no_space tag ->
  result (ParseSyslog clock buf source k) =
  Returned {| Version := 0; Facility := Z.shiftr pri 3;
              Severity := Z.land pri 7; Timestamp := Time_String ts;
              Hostname := host; Tag := tag; StructuredData := "";
              Message := rest; Source := source |}.
Proof.
  intros P L N1 T Nh Nt. unfold legacy_tail in P.
  rewrite (ParseSyslog_after_pri _ _ _ _ _ _ P).
  destruct stamp as [|s0 stamp']; [discriminate|].
  cbn [append]. rewrite parse_version_legacy
    by (intros ->; now apply (N1 stamp')).
  change (String s0 (stamp' ++ String c (host ++ String " " (tag ++ String " " rest))))
    with (String s0 stamp' ++ String c (host ++ String " " (tag ++ String " " rest))).
  set (stamp := String s0 stamp') in *.
  set (after := host ++ String " " (tag ++ String " " rest)).
  assert (Ll : len (stamp ++ String c after) = 16 + len after).
  { rewrite len_app, len_cons. unfold len at 1. rewrite L. lia. }
  pose proof (len_nonneg after).
  unfold parse_legacy.
  rewrite slice_to_ok by lia. cbn [bind].
  change (Z.to_nat 15) with 15%nat. rewrite <- L, take_app, T.
  rewrite slice_from_ok by lia. cbn [bind].
  change (Z.to_nat 16) with (15 + 1)%nat.
  rewrite <- drop_drop, <- L, drop_app.
  change (drop 1 (String c after)) with after. subst after.
  rewrite SplitN_three by assumption. reflexivity.
Qed.

End MoreParser.

(** ** What every returned record is made of *)

Lemma genSplit_head_no_sep (k : nat) (s : string) (sep : ascii) :
  (2 <= List.length (genSplit k s sep))%nat ->
  index_byte_from 0 (part (genSplit k s sep) 0) sep = None.
Proof.
  intros L. destruct k as [|k]; [cbn in L; lia|].
  cbn [genSplit] in *.
  destruct (index_byte_from 0 s sep) as [m|] eqn:E; [|cbn in L; lia].
  apply index_byte_found in E as (_ & N & _). exact N.
Qed.

Section Provenance.

Context {TL : TimeLib}.
Variable clock : nat -> string.

Lemma written_refl (legacy : bool) (rest : string) (m : SyslogMessage) :
  written_after_pri legacy rest m m.
Proof. unfold written_after_pri. auto. Qed.

Lemma parse_sd_written (msg m' : SyslogMessage) (rest r' : string) :
  parse_sd msg rest = Returned (m', r') ->
  Timestamp m' = Timestamp msg /\ Hostname m' = Hostname msg
  /\ (StructuredData m' = StructuredData msg
      \/ exists sd, StructuredData m' = String "[" sd /\ sd <> ""
                    /\ index_byte_from 0 sd "]" = None).
Proof.
  unfold parse_sd. intros H. inv_bind H.
  destruct rest as [|c0 r]; [rewrite index_empty in Ha; discriminate|].
  rewrite index_0_cons in Ha. inv_returned Ha.
  destruct (Ascii.eqb a "[") eqn:C; [|inv_returned H; auto].
  apply Ascii.eqb_eq in C; subst a.
  set (e := strings_IndexRune (String "[" r) "]") in *.
  destruct (1 <? e) eqn:G; [|inv_returned H; auto].
  apply Z.ltb_lt in G.
  assert (F : index_byte_from 0 (String "[" r) "]" = Some (Z.to_nat e))
    by (apply IndexRune_found; [lia | reflexivity]).
  pose proof (IndexRune_range (String "[" r) "]") as R. fold e in R.
  rewrite slice_to_ok in H by lia. cbn [bind] in H.
  inv_bind H. inv_returned H.
  split; [reflexivity|]. split; [reflexivity|]. right.
  apply index_byte_found in F as (_ & N & L).
  destruct (Z.to_nat e) as [|n] eqn:En; [lia|].
  cbn [take] in N |- *. rewrite index_byte_cons in N.
  change (Ascii.eqb "[" "]") with false in N. cbv iota in N.
  exists (take n r). cbn [StructuredData set_StructuredData]. repeat split.
  - intros Z0. assert (String.length (take n r) = n).
    { apply length_take. cbn [String.length] in L. lia. }
    rewrite Z0 in H. cbn in H. lia.
  - destruct (index_byte_from 0 (take n r) "]"); [discriminate | reflexivity].
Qed.

(** The layout under which the structured grammar got its instant. *)
Lemma parse_rfc3339_layout (tok : string) (ts : time_Time) :
  parse_rfc3339 tok = Some ts ->
  exists layout,
    (layout = RFC3339Nano \/ layout = RFC3339)
    /\ time_Parse layout tok = Some ts.
Proof.
  unfold parse_rfc3339. intros H.
  destruct (time_Parse RFC3339Nano tok) as [ts'|] eqn:E.
  - inv_returned H. exists RFC3339Nano. auto.
  - exists RFC3339. auto.
Qed.

Lemma parse_structured_written (msg m' : SyslogMessage) (rest r' : string) :
  parse_structured msg rest = Returned (m', r') ->
  written_after_pri false rest msg m'.
Proof.
  unfold parse_structured. intros H.
  destruct (0 <=? strings_IndexRune rest " ") eqn:G;
    [|inv_returned H; apply written_refl].
  pose proof (IndexRune_range rest " ") as R.
  rewrite slice_to_ok in H by lia. cbn [bind] in H.
  set (tok := take (Z.to_nat (strings_IndexRune rest " ")) rest) in *.
  destruct (parse_rfc3339 tok) as [ts|] eqn:T;
    [|inv_returned H; apply written_refl].
  apply parse_rfc3339_layout in T as (layout & Ly & T).
  inv_bind H.
  assert (P : forall m, Timestamp m = Time_String ts ->
                        parsed_timestamp false rest m).
  { intros m Tm. exists layout, tok, ts,
      (drop (Z.to_nat (strings_IndexRune rest " ")) rest).
    repeat split; try assumption. subst tok. symmetry. apply take_drop. }
  destruct (Nat.eqb (List.length (strings_SplitN a " " 5)) 5) eqn:E.
  - apply Nat.eqb_eq in E.
    apply parse_sd_written in H as (Tm & Hn & S).
    split; [|split].
    + right. apply P. exact Tm.
    + right. unfold no_space. rewrite Hn. cbn [Hostname set_Tag set_Hostname].
      apply (genSplit_head_no_sep 4 a " "). unfold strings_SplitN in E. lia.
    + exact S.
  - apply parse_sd_written in H as (Tm & Hn & S).
    split; [|split].
    + right. apply P. exact Tm.
    + left. exact Hn.
    + exact S.
Qed.

Lemma parse_legacy_written (msg m' : SyslogMessage) (rest r' : string) :
  parse_legacy msg rest = Returned (m', r') ->
  written_after_pri true rest msg m'
  /\ StructuredData m' = StructuredData msg.
Proof.
  unfold parse_legacy. intros H.
  destruct (Z_lt_le_dec (len rest) 15) as [L|L];
    [rewrite slice_to_panics in H by lia; discriminate|].
  rewrite slice_to_ok in H by lia. cbn [bind] in H.
  change (Z.to_nat 15) with 15%nat in H.
  destruct (time_Parse Stamp (take 15 rest)) as [ts|] eqn:T;
    [|inv_returned H; split; [apply written_refl | reflexivity]].
  inv_bind H.
  assert (P : forall m, Timestamp m = Time_String ts ->
                        parsed_timestamp true rest m).
  { intros m Tm. exists Stamp, (take 15 rest), ts, (drop 15 rest).
    repeat split; try assumption. symmetry. apply take_drop. }
  destruct (Nat.eqb (List.length (strings_SplitN a " " 3)) 3) eqn:E.
  - apply Nat.eqb_eq in E. inv_returned H.
    split; [|reflexivity]. split; [|split].
    + right. now apply P.
    + right. unfold no_space. cbn [Hostname set_Tag set_Hostname].
      apply (genSplit_head_no_sep 2 a " "). unfold strings_SplitN in E. lia.
    + left. reflexivity.
  - inv_returned H. split; [|reflexivity]. split; [|split].
    + right. now apply P.
    + left. reflexivity.
    + left. reflexivity.
Qed.

Lemma is_infix_of_prefix_of_suffix (tok after rest buf : string) :
  rest = tok ++ after -> is_suffix rest buf -> is_infix tok buf.
Proof. intros -> [before ->]. now exists before, after. Qed.

(** X8. In every returned record Source is the source argument.
    Timestamp is the clock reading or the printed form of an instant that
    [time.Parse] returned for a run of bytes of the buffer, under the
    layout [Stamp] in a record of Version 0 and under [RFC3339Nano] or
    [RFC3339] in a record of Version 1.  Hostname is the source argument
    or holds no space.  StructuredData is empty or, in a record of Version
    1 only, a ["["] followed by at least one byte, none of them ["]"]. *)
Theorem returned_record_provenance
    (buf source : string) (k : nat) (msg : SyslogMessage) :
  result (ParseSyslog clock buf source k) = Returned msg ->
  Source msg = source
  /\ (Timestamp msg = clock k
      \/ exists layout tok ts,
           is_infix tok buf
           /\ time_Parse layout tok = Some ts
           /\ Timestamp msg = Time_String ts
           /\ (Version msg = 0 /\ layout = Stamp
               \/ Version msg = 1
                  /\ (layout = RFC3339Nano \/ layout = RFC3339)))
  /\ (Hostname msg = source \/ no_space (Hostname msg))
  /\ (StructuredData msg = ""
      \/ (Version msg = 1
          /\ exists sd, StructuredData msg = String "[" sd /\ sd <> ""
                        /\ index_byte_from 0 sd "]" = None)).
Proof.
  intros H. destruct buf as [|c0 b]; [discriminate|].
  destruct (pri_stage (String c0 b)) as [[pri tail]|] eqn:P.
  - destruct (ParseSyslog_pri_fields _ _ _ _ _ _ _ P H)
      as (_ & _ & So & _ & c & tl & E & V).
    split; [exact So|]. subst tail.
    assert (Suf : is_suffix (String c tl) (String c0 b)).
    { apply pri_stage_elim in P as (digits & -> & _).
      exists (String "<" (digits ++ ">")). cbn [append].
      now rewrite app_assoc_s. }
    rewrite (ParseSyslog_after_pri _ _ _ _ _ _ P) in H.
    unfold finish in H. inv_bind H. destruct a as [m r]. inv_returned H.
    cbn [Timestamp Hostname StructuredData Version set_Message] in *.
    destruct (Ascii.eqb c "1") eqn:C.
    + apply Ascii.eqb_eq in C; subst c.
      destruct tl as [|c' w]; [discriminate|].
      rewrite parse_version_structured in Ha.
      apply parse_structured_written in Ha as (T & Hn & S).
      cbn in Hn, S. split; [|split].
      * destruct T as [T | (layout & tok & ts & after & R & Ly & Pt & Tm)];
          [left; exact T|].
        right. exists layout, tok, ts. repeat split; try assumption.
        -- apply (is_infix_of_prefix_of_suffix tok after w _ R).
           eapply is_suffix_trans; [|exact Suf].
           exists (String "1" (String c' "")). reflexivity.
        -- right. split; assumption.
      * exact Hn.
      * destruct S as [S | S]; [left; exact S | right; split; assumption].
    + apply Ascii.eqb_neq in C. rewrite parse_version_legacy in Ha by assumption.
      apply parse_legacy_written in Ha as ((T & Hn & _) & S).
      cbn in Hn, S. split; [|split].
      * destruct T as [T | (layout & tok & ts & after & R & Ly & Pt & Tm)];
          [left; exact T|].
        right. exists layout, tok, ts. repeat split; try assumption.
        -- exact (is_infix_of_prefix_of_suffix tok after _ _ R Suf).
        -- left. split; assumption.
      * exact Hn.
      * left. exact S.
  - rewrite ParseSyslog_no_pri in H by assumption. inv_returned H.
    cbn. repeat split; auto.
Qed.

End Provenance.

(* ================================================================== *)
(** * IngestMessage *)

(** ** The attribute map *)

Lemma vars_get_filter_other (m : Vars) (k key : string) :
  k <> key ->
  vars_get (filter (fun kv => negb (String.eqb (fst kv) k)) m) key
  = vars_get m key.
Proof.
  intros N. induction m as [|[k' v'] m IH]; [reflexivity|].
  cbn [filter fst]. destruct (String.eqb k' k) eqn:E; cbn [negb vars_get].
  - apply String.eqb_eq in E; subst k'.
    apply String.eqb_neq in N. now rewrite N.
  - now rewrite IH.
Qed.

(** What was set is read back. *)
Lemma vars_get_set_same (m : Vars) (k v : string) :
  vars_get (vars_set k v m) k = Some v.
Proof. unfold vars_set. cbn [vars_get]. now rewrite String.eqb_refl. Qed.

(** Setting a key leaves the others alone. *)
Lemma vars_get_set_other (m : Vars) (k v key : string) :
  k <> key -> vars_get (vars_set k v m) key = vars_get m key.
Proof.
  intros N. unfold vars_set. cbn [vars_get].
  pose proof N as N'. apply String.eqb_neq in N'. rewrite N'.
  now apply vars_get_filter_other.
Qed.

Lemma len_pos (s : string) : (0 <? len s) = negb (String.eqb s "").
Proof.
  destruct s as [|c s]; [reflexivity|].
  rewrite len_cons. pose proof (len_nonneg s).
  destruct (0 <? 1 + len s) eqn:E; [reflexivity | lia].
Qed.

Lemma itoa_round_trip_all :
  forallb itoa_round_trip (map (fun n => Z.of_nat n - 13) (seq 0 138)) = true.
Proof. vm_compute. reflexivity. Qed.

Lemma Atoi_Itoa_small (i : Z) :
  -13 <= i <= 124 -> strconv_Atoi (strconv_Itoa i) = Some i.
Proof.
  intros H.
  assert (I : In i (map (fun n => Z.of_nat n - 13) (seq 0 138))).
  { apply in_map_iff. exists (Z.to_nat (i + 13)). split; [lia|].
    apply in_seq. lia. }
  pose proof (proj1 (forallb_forall _ _) itoa_round_trip_all i I) as K.
  unfold itoa_round_trip in K.
  destruct (strconv_Atoi (strconv_Itoa i)) as [v|]; [|discriminate].
  f_equal. lia.
Qed.

(** The three numeric attributes are always bound. *)
Lemma ingest_vars_numeric (msg : SyslogMessage) :
  vars_get (ingest_vars msg) "SYSLOG_VERSION" = Some (strconv_Itoa (Version msg))
  /\ vars_get (ingest_vars msg) "SYSLOG_FACILITY"
     = Some (strconv_Itoa (Facility msg))
  /\ vars_get (ingest_vars msg) "SYSLOG_SEVERITY"
     = Some (strconv_Itoa (Severity msg)).
Proof.
  unfold ingest_vars.
  destruct (0 <? len (Timestamp msg)), (0 <? len (Hostname msg)),
    (0 <? len (Source msg)), (0 <? len (StructuredData msg));
    repeat split; reflexivity.
Qed.

Section IngestFacts.

Context {TL : TimeLib}.
Variable clock : nat -> string.
Variable journal_Send : string -> Z -> Vars -> option string.

(** Facility stays within what three bytes of PRI can encode. *)
Lemma ParseSyslog_facility_range
    (buf source : string) (k : nat) (msg : SyslogMessage) :
  result (ParseSyslog clock buf source k) = Returned msg ->
  -13 <= Facility msg <= 124.
Proof.
  intros H. destruct buf as [|c b]; [discriminate|].
  destruct (pri_stage (String c b)) as [[pri tail]|] eqn:P.
  - destruct (ParseSyslog_pri_fields _ _ _ _ _ _ _ P H) as (F & _).
    apply pri_stage_elim in P as (digits & _ & L & _ & A).
    apply Atoi_three_bytes in A; [|lia].
    rewrite F. destruct (pri_arith pri) as (-> & _ & _).
    pose proof (Z.div_mod pri 8). pose proof (Z.mod_pos_bound pri 8). lia.
  - rewrite ParseSyslog_no_pri in H by assumption. inv_returned H. cbn. lia.
Qed.

(** X11. The numbers written into SYSLOG_VERSION, SYSLOG_FACILITY and
    SYSLOG_SEVERITY read back, through [Atoi], as the Version, Facility and
    Severity of the record, for every record the parser returns. *)
Theorem ingest_numbers_round_trip
    (buf source : string) (k : nat) (msg : SyslogMessage) :
  result (ParseSyslog clock buf source k) = Returned msg ->
  exists v f s,
    vars_get (ingest_vars msg) "SYSLOG_VERSION" = Some v
    /\ vars_get (ingest_vars msg) "SYSLOG_FACILITY" = Some f
    /\ vars_get (ingest_vars msg) "SYSLOG_SEVERITY" = Some s
    /\ strconv_Atoi v = Some (Version msg)
    /\ strconv_Atoi f = Some (Facility msg)
    /\ strconv_Atoi s = Some (Severity msg).
Proof.
  intros H.
  destruct (ingest_vars_numeric msg) as (V & F & S).
  destruct (ParseSyslog_ranges _ _ _ _ _ H) as (Rs & Rv).
  pose proof (ParseSyslog_facility_range _ _ _ _ H) as Rf.
  exists (strconv_Itoa (Version msg)), (strconv_Itoa (Facility msg)),
         (strconv_Itoa (Severity msg)).
  repeat split; try assumption; apply Atoi_Itoa_small; lia.
Qed.

(** X12. A packet that does not start with ["<"] is sent as it came, at
    priority 5 (notice), with version and facility 0 and no structured
    data; its identifier is the source address followed by a space, the
    Tag being empty; SYSLOG_HOSTNAME and SYSLOG_SOURCE are both the source
    address, or both missing when that address is empty. *)
Theorem ingest_plain_packet (c : ascii) (s source : string) (k : nat) :
  c <> "<"%char ->
  exists vars log,
    result (IngestMessage clock journal_Send (String c s) source k)
    = Returned (JournalSend (String c s) 5 vars :: log)
    /\ (log = [] \/ exists err, log = [LogPrintln err])
    /\ vars_get vars "SYSLOG_VERSION" = Some "0"
    /\ vars_get vars "SYSLOG_FACILITY" = Some "0"
    /\ vars_get vars "SYSLOG_SEVERITY" = Some "5"
    /\ vars_get vars "SYSLOG_IDENTIFIER" = Some (source ++ " ")
    /\ vars_get vars "SYSLOG_STRUCTURED_DATA" = None
    /\ vars_get vars "SYSLOG_HOSTNAME"
       = (if String.eqb source "" then None else Some source)
    /\ vars_get vars "SYSLOG_SOURCE"
       = (if String.eqb source "" then None else Some source).
Proof.
  intros N.
  pose proof (ParseSyslog_no_pri clock c s source k
                (pri_stage_no_bracket c s N)) as P.
  unfold IngestMessage, run_bind. rewrite ParseSyslog_run in *.
  unfold result, fst in *. rewrite P.
  set (msg := set_Message (String c s) (initial (clock k) source)).
  exists (ingest_vars msg).
  exists (match journal_Send (Message msg) (Severity msg) (ingest_vars msg) with
          | Some err => [LogPrintln err]
          | None => []
          end).
  split; [|split].
  - unfold send_and_log, run_bind, log_Println, lift.
    destruct (journal_Send _ _ _); reflexivity.
  - destruct (journal_Send _ _ _); [right; eauto | left; reflexivity].
  - subst msg. unfold ingest_vars. rewrite !len_pos.
    cbn [Timestamp Hostname Source StructuredData Version Facility Severity
         Tag set_Message initial].
    destruct (String.eqb (clock k) ""), (String.eqb source "");
      cbn [negb]; repeat split; reflexivity.
Qed.

End IngestFacts.

(* ================================================================== *)
(** * More concrete packets *)

Module MoreRuns.

Import RefTime Packets.

Lemma malformed_pri_keeps_buffer_witness :
  (index_byte_from 0 "abc>hello" ">" = None
   \/ exists digits tail,
        "abc>hello" = digits ++ String ">" tail
        /\ index_byte_from 0 digits ">" = None
        /\ (digits = "" \/ (4 <= String.length digits)%nat
            \/ strconv_Atoi digits = None))
  /\ result (@ParseSyslog lib frozen_clock "<abc>hello" source 0%nat) =
     Returned {| Version := 0; Facility := 0; Severity := 5;
                 Timestamp := now; Hostname := source; Tag := "";
                 StructuredData := ""; Message := "<abc>hello";
                 Source := source |}.
Proof.
  assert (H : index_byte_from 0 "abc>hello" ">" = None
              \/ exists digits tail,
                   "abc>hello" = digits ++ String ">" tail
                   /\ index_byte_from 0 digits ">" = None
                   /\ (digits = "" \/ (4 <= String.length digits)%nat
                       \/ strconv_Atoi digits = None)).
  { right. exists "abc", "hello". repeat split. right. right. reflexivity. }
  split; [exact H|].
  exact (@malformed_pri_keeps_buffer lib frozen_clock "abc>hello" source 0%nat H).
Defined.


Lemma structured_data_captured_witness :
  (pri_stage "<13>1 2015-12-15T11:54:41Z host app - - [ab] msg"
   = Some (13, structured_tail " " "2015-12-15T11:54:41Z" "host" "app" "-" "-"
                 (String "[" ("ab" ++ String "]" (String " " "msg"))))
   /\ no_space "2015-12-15T11:54:41Z" /\ no_space "host" /\ no_space "app"
   /\ no_space "-"
   /\ @parse_rfc3339 lib "2015-12-15T11:54:41Z"
      = Some (RefTime.mk "2015-12-15" "11:54:41" "" "+0000 UTC")
   /\ "ab" <> "" /\ index_byte_from 0 "ab" "]" = None)
  /\ result (@ParseSyslog lib frozen_clock
               "<13>1 2015-12-15T11:54:41Z host app - - [ab] msg" source 0%nat) =
     Returned {| Version := 1; Facility := Z.shiftr 13 3;
                 Severity := Z.land 13 7;
                 Timestamp := "2015-12-15 11:54:41 +0000 UTC";
                 Hostname := "host"; Tag := "app - -";
                 StructuredData := "[ab"; Message := "msg";
                 Source := source |}.
Proof.
  assert (P : pri_stage "<13>1 2015-12-15T11:54:41Z host app - - [ab] msg"
              = Some (13, structured_tail " " "2015-12-15T11:54:41Z" "host" "app"
                            "-" "-"
                            (String "[" ("ab" ++ String "]" (String " " "msg")))))
    by reflexivity.
  assert (Nt : no_space "2015-12-15T11:54:41Z") by reflexivity.
  assert (Nh : no_space "host") by reflexivity.
  assert (Na : no_space "app") by reflexivity.
  assert (Nd : no_space "-") by reflexivity.
  assert (T : @parse_rfc3339 lib "2015-12-15T11:54:41Z"
              = Some (RefTime.mk "2015-12-15" "11:54:41" "" "+0000 UTC"))
    by reflexivity.
  assert (NE : "ab" <> "") by discriminate.
  assert (N : index_byte_from 0 "ab" "]" = None) by reflexivity.
  split; [repeat split; assumption|].
  exact (@structured_data_captured lib frozen_clock _ source
           "2015-12-15T11:54:41Z" "host" "app" "-" "-" "ab" "msg"
           " "%char " "%char 13 0%nat _ P Nt Nh Na Nd Nd T NE N).
Defined.

Lemma structured_packet_cut_short_witness :
  (no_space "2015-12-15T11:54:41Z" /\ no_space "host" /\ no_space "app"
   /\ no_space "-"
   /\ @parse_rfc3339 lib "2015-12-15T11:54:41Z"
      = Some (RefTime.mk "2015-12-15" "11:54:41" "" "+0000 UTC")
   /\ pri_stage "<13>1 2015-12-15T11:54:41Z host app - - [ab]"
      = Some (13, structured_tail " " "2015-12-15T11:54:41Z" "host" "app" "-" "-"
                    (String "[" ("ab" ++ "]")))
   /\ "ab" <> "" /\ index_byte_from 0 "ab" "]" = None)
  /\ result (@ParseSyslog lib frozen_clock
               "<13>1 2015-12-15T11:54:41Z host app - - [ab]" source 0%nat)
     = Panicked SliceBoundsOutOfRange.
Proof.
  assert (Nt : no_space "2015-12-15T11:54:41Z") by reflexivity.
  assert (Nh : no_space "host") by reflexivity.
  assert (Na : no_space "app") by reflexivity.
  assert (Nd : no_space "-") by reflexivity.
  assert (T : @parse_rfc3339 lib "2015-12-15T11:54:41Z"
              = Some (RefTime.mk "2015-12-15" "11:54:41" "" "+0000 UTC"))
    by reflexivity.
  assert (P : pri_stage "<13>1 2015-12-15T11:54:41Z host app - - [ab]"
              = Some (13, structured_tail " " "2015-12-15T11:54:41Z" "host" "app"
                            "-" "-" (String "[" ("ab" ++ "]"))))
    by reflexivity.
  assert (NE : "ab" <> "") by discriminate.
  assert (N : index_byte_from 0 "ab" "]" = None) by reflexivity.
  split; [repeat split; assumption|].
  exact (proj2 (@structured_packet_cut_short lib frozen_clock _ source
                  "2015-12-15T11:54:41Z" "host" "app" "-" "-" "ab"
                  " "%char 13 0%nat _ Nt Nh Na Nd Nd T) P NE N).
Defined.

Lemma structured_data_not_captured_witness :
  (pri_stage "<13>1 2015-12-15T11:54:41Z host app - - [] msg"
   = Some (13, structured_tail " " "2015-12-15T11:54:41Z" "host" "app" "-" "-"
                 (String "[" "] msg"))
   /\ no_space "2015-12-15T11:54:41Z" /\ no_space "host" /\ no_space "app"
   /\ no_space "-"
   /\ @parse_rfc3339 lib "2015-12-15T11:54:41Z"
      = Some (RefTime.mk "2015-12-15" "11:54:41" "" "+0000 UTC")
   /\ (index_byte_from 0 "] msg" "]" = None
       \/ exists more, "] msg" = String "]" more))
  /\ result (@ParseSyslog lib frozen_clock
               "<13>1 2015-12-15T11:54:41Z host app - - [] msg" source 0%nat) =
     Returned {| Version := 1; Facility := Z.shiftr 13 3;
                 Severity := Z.land 13 7;
                 Timestamp := "2015-12-15 11:54:41 +0000 UTC";
                 Hostname := "host"; Tag := "app - -";
                 StructuredData := ""; Message := "[] msg";
                 Source := source |}.
Proof.
  assert (P : pri_stage "<13>1 2015-12-15T11:54:41Z host app - - [] msg"
              = Some (13, structured_tail " " "2015-12-15T11:54:41Z" "host" "app"
                            "-" "-" (String "[" "] msg"))) by reflexivity.
  assert (Nt : no_space "2015-12-15T11:54:41Z") by reflexivity.
  assert (Nh : no_space "host") by reflexivity.
  assert (Na : no_space "app") by reflexivity.
  assert (Nd : no_space "-") by reflexivity.
  assert (T : @parse_rfc3339 lib "2015-12-15T11:54:41Z"
              = Some (RefTime.mk "2015-12-15" "11:54:41" "" "+0000 UTC"))
    by reflexivity.
  assert (S : index_byte_from 0 "] msg" "]" = None
              \/ exists more, "] msg" = String "]" more)
    by (right; exists " msg"; reflexivity).
  split; [repeat split; assumption|].
  exact (@structured_data_not_captured lib frozen_clock _ source
           "2015-12-15T11:54:41Z" "host" "app" "-" "-" "] msg"
           " "%char 13 0%nat _ P Nt Nh Na Nd Nd T S).
Defined.

Lemma structured_without_token_witness :
  (no_space "m" /\ pri_stage "<13>1xm" = Some (13, String "1" (String "x" "m")))
  /\ result (@ParseSyslog lib frozen_clock "<13>1xm" source 0%nat) =
     Returned {| Version := 1; Facility := Z.shiftr 13 3;
                 Severity := Z.land 13 7; Timestamp := now;
                 Hostname := source; Tag := ""; StructuredData := "";
                 Message := "m"; Source := source |}.
Proof.
  assert (N : no_space "m") by reflexivity.
  assert (P : pri_stage "<13>1xm" = Some (13, String "1" (String "x" "m")))
    by reflexivity.
  split; [split; assumption|].
  exact (proj1 (@structured_without_token lib frozen_clock "<13>1xm" source
                  "m" "x"%char 13 0%nat N) P).
Defined.

Lemma legacy_fields_witness :
  (pri_stage legacy
   = Some (13, legacy_tail "Dec 15 11:55:02" " " "host" "user:" "message")
   /\ String.length "Dec 15 11:55:02" = 15%nat
   /\ (forall tl, "Dec 15 11:55:02" <> String "1" tl)
   /\ @time_Parse lib Stamp "Dec 15 11:55:02"
      = Some (RefTime.mk "0000-12-15" "11:55:02" "" "+0000 UTC")
   /\ no_space "host" /\ no_space "user:")
  /\ result (@ParseSyslog lib frozen_clock legacy source 0%nat) =
     Returned {| Version := 0; Facility := Z.shiftr 13 3;
                 Severity := Z.land 13 7;
                 Timestamp := "0000-12-15 11:55:02 +0000 UTC";
                 Hostname := "host"; Tag := "user:"; StructuredData := "";
                 Message := "message"; Source := source |}.
Proof.
  assert (P : pri_stage legacy
              = Some (13, legacy_tail "Dec 15 11:55:02" " " "host" "user:"
                            "message")) by reflexivity.
  assert (L : String.length "Dec 15 11:55:02" = 15%nat) by reflexivity.
  assert (N1 : forall tl, "Dec 15 11:55:02" <> String "1" tl)
    by (intros tl; discriminate).
  assert (T : @time_Parse lib Stamp "Dec 15 11:55:02"
              = Some (RefTime.mk "0000-12-15" "11:55:02" "" "+0000 UTC"))
    by reflexivity.
  assert (Nh : no_space "host") by reflexivity.
  assert (Nt : no_space "user:") by reflexivity.
  split; [repeat split; assumption|].
  exact (@legacy_fields lib frozen_clock legacy source "Dec 15 11:55:02"
           "host" "user:" "message" " "%char 13 0%nat _ P L N1 T Nh Nt).
Defined.

Lemma returned_record_provenance_witness :
  result (@ParseSyslog lib frozen_clock
            "<13>1 2015-12-15T11:54:41Z host app - - [ab] msg" source 0%nat) =
  Returned {| Version := 1; Facility := 1; Severity := 5;
              Timestamp := "2015-12-15 11:54:41 +0000 UTC";
              Hostname := "host"; Tag := "app - -";
              StructuredData := "[ab"; Message := "msg"; Source := source |}
  /\ source = source
  /\ ("2015-12-15 11:54:41 +0000 UTC" = frozen_clock 0
      \/ exists layout tok ts,
           is_infix tok "<13>1 2015-12-15T11:54:41Z host app - - [ab] msg"
           /\ @time_Parse lib layout tok = Some ts
           /\ "2015-12-15 11:54:41 +0000 UTC" = @Time_String lib ts
           /\ (1 = 0 /\ layout = Stamp
               \/ 1 = 1 /\ (layout = RFC3339Nano \/ layout = RFC3339)))
  /\ ("host" = source \/ no_space "host")
  /\ ("[ab" = ""
      \/ (1 = 1
          /\ exists sd, "[ab" = String "[" sd /\ sd <> ""
                        /\ index_byte_from 0 sd "]" = None)).
Proof.
  assert (H : result (@ParseSyslog lib frozen_clock
                        "<13>1 2015-12-15T11:54:41Z host app - - [ab] msg"
                        source 0%nat) =
              Returned {| Version := 1; Facility := 1; Severity := 5;
                          Timestamp := "2015-12-15 11:54:41 +0000 UTC";
                          Hostname := "host"; Tag := "app - -";
                          StructuredData := "[ab"; Message := "msg";
                          Source := source |})
    by (vm_compute; reflexivity).
  split; [exact H|].
  exact (@returned_record_provenance lib frozen_clock _ source 0%nat _ H).
Defined.

Lemma ingest_numbers_round_trip_witness :
  result (@ParseSyslog lib frozen_clock "<-1>1xm" source 0%nat) =
  Returned {| Version := 1; Facility := -1; Severity := 7;
              Timestamp := now; Hostname := source; Tag := "";
              StructuredData := ""; Message := "m"; Source := source |}
  /\ exists v f s,
       vars_get (ingest_vars
                   {| Version := 1; Facility := -1; Severity := 7;
                      Timestamp := now; Hostname := source; Tag := "";
                      StructuredData := ""; Message := "m"; Source := source |})
                "SYSLOG_VERSION" = Some v
       /\ vars_get (ingest_vars
                   {| Version := 1; Facility := -1; Severity := 7;
                      Timestamp := now; Hostname := source; Tag := "";
                      StructuredData := ""; Message := "m"; Source := source |})
                "SYSLOG_FACILITY" = Some f
       /\ vars_get (ingest_vars
                   {| Version := 1; Facility := -1; Severity := 7;
                      Timestamp := now; Hostname := source; Tag := "";
                      StructuredData := ""; Message := "m"; Source := source |})
                "SYSLOG_SEVERITY" = Some s
       /\ strconv_Atoi v = Some 1
       /\ strconv_Atoi f = Some (-1)
       /\ strconv_Atoi s = Some 7.
Proof.
  assert (H : result (@ParseSyslog lib frozen_clock "<-1>1xm" source 0%nat) =
              Returned {| Version := 1; Facility := -1; Severity := 7;
                          Timestamp := now; Hostname := source; Tag := "";
                          StructuredData := ""; Message := "m";
                          Source := source |})
    by (vm_compute; reflexivity).
  split; [exact H|].
  exact (@ingest_numbers_round_trip lib frozen_clock "<-1>1xm" source 0%nat _ H).
Defined.

Lemma ingest_plain_packet_witness :
  "h"%char <> "<"%char
  /\ exists vars log,
       result (@IngestMessage lib frozen_clock Journal.down "hello" source 0%nat)
       = Returned (JournalSend "hello" 5 vars :: log)
       /\ (log = [] \/ exists err, log = [LogPrintln err])
       /\ vars_get vars "SYSLOG_VERSION" = Some "0"
       /\ vars_get vars "SYSLOG_FACILITY" = Some "0"
       /\ vars_get vars "SYSLOG_SEVERITY" = Some "5"
       /\ vars_get vars "SYSLOG_IDENTIFIER" = Some "127.0.0.1 "
       /\ vars_get vars "SYSLOG_STRUCTURED_DATA" = None
       /\ vars_get vars "SYSLOG_HOSTNAME" = Some "127.0.0.1"
       /\ vars_get vars "SYSLOG_SOURCE" = Some "127.0.0.1".
Proof.
  assert (N : "h"%char <> "<"%char) by discriminate.
  split; [exact N|].
  exact (@ingest_plain_packet lib frozen_clock Journal.down
           "h"%char "ello" source 0%nat N).
Defined.

(** A refused entry is logged, an accepted one is not. *)
Example ingest_legacy_journal_down :
  result (@IngestMessage lib frozen_clock Journal.down legacy source 0%nat) =
  Returned
    [ JournalSend "message" 5
        [ ("SYSLOG_SOURCE", "127.0.0.1"); ("SYSLOG_HOSTNAME", "host");
          ("SYSLOG_TIMESTAMP", "0000-12-15 11:55:02 +0000 UTC");
          ("SYSLOG_VERSION", "0"); ("SYSLOG_FACILITY", "1");
          ("SYSLOG_SEVERITY", "5"); ("SYSLOG_IDENTIFIER", "host user:") ];
      LogPrintln
        "dial unixgram /run/systemd/journal/socket: connect: connection refused" ].
Proof. vm_compute. reflexivity. Qed.

End MoreRuns.
